(** * tapchannel: the auxiliary traffic shaper

    A shallow embedding of [tapchannel/aux_traffic_shaper.go]: the three
    entry points of the [routing.TlvTrafficShaper] interface
    ([HandleTraffic], [PaymentBandwidth], [ProduceHtlcExtraData]) as pure
    functions over the decoded records, with the TLV codec layer and the
    RFQ manager's table of accepted quotes taken as parameters, and
    [Start] and [Stop] as transitions on the state their guards keep.

    Conventions.
    - [uint64] values ([lnwire.MilliSatoshi], asset amounts, SCIDs) are
      numbers of type [N]; every Go operation that can leave the 64-bit
      range is written with its wrap-around ([wrap64]).
    - A Go result tuple [(v, err)] is a Rocq tuple whose last component is
      an [option error]; [None] is Go's [nil] error.  A [nil] blob is [None].
    - A Go map is a [gmap]. *)

From Stdlib Require Import NArith Lia List.
From stdpp Require Import base numbers option gmap.

Local Open Scope N_scope.

(** ** Machine integers *)

Module U64.

Definition modulus : N := 2 ^ 64.

Definition max : N := modulus - 1.

(** Reduction into the [uint64] range. *)
Definition wrap64 (x : N) : N := x mod modulus.

(** Go's [a * b] on [uint64] operands. *)
Definition mul (a b : N) : N := wrap64 (a * b).

End U64.

(** ** Data model *)

(** [tlv.Blob] is a byte slice. *)
Definition Blob : Type := list Byte.byte.

(** [rfqmsg.ID] and [asset.ID] are 32-byte arrays. *)
Definition ID : Type := list Byte.byte.
Definition AssetID : Type := list Byte.byte.

(** [lnwire.MilliSatoshi] is a [uint64]. *)
Definition MilliSatoshi : Type := N.

(** Errors.  [ErrCodec] stands for whatever the TLV layer reports; the
    others are the [fmt.Errorf] values built in this file, the wrapping
    ones ([%w]) keeping the error they wrap. *)
Inductive error : Type :=
| ErrCodec (msg : list Byte.byte)
| ErrNoBlobAvailable
| ErrDecodingCommitment (cause : error)
| ErrDecodingHtlc (cause : error)
| ErrSerializingHtlc (cause : error)
| ErrNoRfqID
| ErrNoAcceptedQuote (rfqID : ID) (scid : N)
| ErrQuoteNoAssetID.

(** The result [(T, error)] of a decoder. *)
Inductive result (T : Type) : Type :=
| Ok (v : T)
| Fail (e : error).
Arguments Ok {T} v.
Arguments Fail {T} e.

(** [rfqmsg.AssetBalance]. *)
Record AssetBalance : Type := NewAssetBalance {
  AssetID_of : AssetID;
  Amount : N
}.

(** [rfqmsg.Htlc]: the balances of [Amounts.Val.Balances] and the optional
    [RfqID]. *)
Record Htlc : Type := MkHtlc {
  Balances : list AssetBalance;
  RfqID : option ID
}.

(** The assignment [htlc.Amounts.Val.Balances = bs]. *)
Definition set_Balances (bs : list AssetBalance) (h : Htlc) : Htlc :=
  {| Balances := bs; RfqID := RfqID h |}.

(** [tapchannelmsg.AssetOutput], as far as its amount. *)
Record AssetOutput : Type := MkAssetOutput {
  OutputAmount : N
}.

(** [tapchannelmsg.Commitment], as far as [LocalOutputs()]. *)
Record Commitment : Type := MkCommitment {
  LocalOutputs : list AssetOutput
}.

(** [tapchannelmsg.OpenChannel]; only the fact that it decodes is used. *)
Record OpenChannel : Type := MkOpenChannel {
  FundedAssets : list AssetOutput
}.

(** [rfqmsg.SellAccept], as far as the two fields read here; [AssetID] is
    a pointer that may be [nil]. *)
Record SellAccept : Type := MkSellAccept {
  BidPrice : MilliSatoshi;
  AssetID_opt : option AssetID
}.

(** [lnwire.CustomRecords] is [map[uint64][]byte], a [gmap N Blob]; the
    table returned by [RfqManager.PeerAcceptedSellQuotes()] is a
    [gmap N SellAccept] keyed by the serialised SCID. *)

(** [rfq.Manager], as far as the table of accepted sell quotes that
    [PeerAcceptedSellQuotes()] hands out. *)
Record Manager : Type := MkManager {
  PeerAcceptedSellQuotes : gmap N SellAccept
}.

Record TrafficShaperConfig : Type := MkTrafficShaperConfig {
  RfqManager : Manager
}.

Record AuxTrafficShaper : Type := NewAuxTrafficShaper {
  cfg : TrafficShaperConfig
}.

(** ** External collaborators *)

(** The TLV layer ([tapchannelmsg], [rfqmsg], [lnwire]): decoders, the
    encoder [htlc.Bytes()], [CustomRecords.Serialize()] and the SCID that
    [rfqID.Scid()] derives from a quote identifier. *)
Class TlvCodec : Type := {
  DecodeOpenChannel : Blob -> result OpenChannel;
  DecodeCommitment : Blob -> result Commitment;
  DecodeHtlc : Blob -> result Htlc;
  Bytes : Htlc -> Blob;
  Serialize : gmap N Blob -> result Blob;
  Scid : ID -> N
}.

(** Modelled from the spec: [tapchannelmsg.OutputSum] is not part of the
    sources at hand.  "Local available balance = sum of asset-unit values
    across all local outputs"; the accumulator is a [uint64]. *)
Definition OutputSum (outputs : list AssetOutput) : N :=
  fold_left (fun sum output => U64.wrap64 (sum + OutputAmount output))
            outputs 0.

(** Modelled from the spec: [AssetBalanceListRecord.Sum] of [rfqmsg] is not
    part of the sources at hand.  "[Sum()] = total asset units requested";
    the accumulator is a [uint64]. *)
Definition Sum (balances : list AssetBalance) : N :=
  fold_left (fun sum balance => U64.wrap64 (sum + Amount balance))
            balances 0.

(** [btcutil.MaxSatoshi], "number of Satoshis ever in existence":
    21 million coins of 1e8 satoshi. *)
Definition MaxSatoshi : N := 21000000 * 100000000.

(** [lnwire.NewMSatFromSatoshis]: 1000 milli-satoshi per satoshi. *)
Definition mSatScale : N := 1000.
Definition NewMSatFromSatoshis (sat : N) : MilliSatoshi :=
  U64.mul sat mSatScale.

(** [DefaultOnChainHtlcAmount = lnwallet.DustLimitForSize(
    input.UnknownWitnessSize)]: lnd's dust limit, in satoshi, of an output
    with a witness program of unknown version. *)
Definition DustLimitUnknownWitness : N := 354.
Definition DefaultOnChainHtlcAmount : N := DustLimitUnknownWitness.

(** [lfn.Option]: [IsNone] and [MapOptionZ], which gives the zero value of
    the result type on [None]. *)
Definition IsNone {A : Type} (o : option A) : bool :=
  match o with
  | None => true
  | Some _ => false
  end.

Definition MapOptionZ {A B : Type} (zero : B) (o : option A) (f : A -> B) : B :=
  match o with
  | Some a => f a
  | None => zero
  end.

(** What a call does: it returns, or the runtime panics (here only on an
    integer division by zero). *)
Inductive outcome (A : Type) : Type :=
| Returns (a : A)
| Panics.
Arguments Returns {A} a.
Arguments Panics {A}.

(** ** The traffic shaper *)

(** [uint64(totalAmount*10/mSatPerAssetUnit) / 10] for a non-zero divisor:
    the multiplication is a [uint64] one. *)
Definition numAssetUnits (totalAmount mSatPerAssetUnit : MilliSatoshi) : N :=
  (U64.mul totalAmount 10 / mSatPerAssetUnit) / 10.

Section Shaper.

Context {codec : TlvCodec}.

Definition HandleTraffic (s : AuxTrafficShaper) (cid : N)
    (fundingBlob : option Blob) : bool * option error :=
  if IsNone fundingBlob then (false, None)
  else
    let err :=
      MapOptionZ None fundingBlob (fun blob =>
        match DecodeOpenChannel blob with
        | Ok _ => None
        | Fail err => Some err
        end) in
    match err with
    | Some err => (false, Some err)
    | None => (true, None)
    end.

Definition PaymentBandwidth (s : AuxTrafficShaper)
    (htlcBlob commitmentBlob : option Blob) : MilliSatoshi * option error :=
  match commitmentBlob, htlcBlob with
  | Some commitmentBytes, Some htlcBytes =>
    match DecodeCommitment commitmentBytes with
    | Fail err => (0, Some (ErrDecodingCommitment err))
    | Ok commitment =>
      match DecodeHtlc htlcBytes with
      | Fail err => (0, Some (ErrDecodingHtlc err))
      | Ok htlc =>
        let localBalance := OutputSum (LocalOutputs commitment) in
        let htlcAssetAmount := Sum (Balances htlc) in
        if negb (htlcAssetAmount =? 0) && (htlcAssetAmount <=? localBalance)
        then (NewMSatFromSatoshis MaxSatoshi, None)
        else
          match RfqID htlc with
          | None => (0, None)
          | Some rfqID =>
            let acceptedQuotes :=
              PeerAcceptedSellQuotes (RfqManager (cfg s)) in
            match acceptedQuotes !! Scid rfqID with
            | None => (0, Some (ErrNoAcceptedQuote rfqID (Scid rfqID)))
            | Some quote =>
              let mSatPerAssetUnit := BidPrice quote in
              (U64.mul localBalance mSatPerAssetUnit, None)
            end
          end
      end
    end
  | _, _ => (0, Some ErrNoBlobAvailable)
  end.

Definition ProduceHtlcExtraData (s : AuxTrafficShaper)
    (totalAmount : MilliSatoshi) (htlcCustomRecords : gmap N Blob)
    : outcome (MilliSatoshi * option Blob * option error) :=
  if Nat.eqb (size htlcCustomRecords) 0
  then Returns (totalAmount, None, None)
  else
    match Serialize htlcCustomRecords with
    | Fail err => Returns (0, None, Some (ErrSerializingHtlc err))
    | Ok htlcBlob =>
      match DecodeHtlc htlcBlob with
      | Fail err => Returns (0, None, Some (ErrDecodingHtlc err))
      | Ok htlc =>
        if 0 <? Sum (Balances htlc)
        then Returns (totalAmount, Some htlcBlob, None)
        else
          match RfqID htlc with
          | None => Returns (0, None, Some ErrNoRfqID)
          | Some rfqID =>
            let acceptedQuotes :=
              PeerAcceptedSellQuotes (RfqManager (cfg s)) in
            match acceptedQuotes !! Scid rfqID with
            | None =>
              Returns (0, None,
                       Some (ErrNoAcceptedQuote rfqID (Scid rfqID)))
            | Some quote =>
              let mSatPerAssetUnit := BidPrice quote in
              if mSatPerAssetUnit =? 0 then Panics
              else
                let units := numAssetUnits totalAmount mSatPerAssetUnit in
                match AssetID_opt quote with
                | None => Returns (0, None, Some ErrQuoteNoAssetID)
                | Some assetID =>
                  let htlc' :=
                    set_Balances [NewAssetBalance assetID units] htlc in
                  let htlcAmountMSat :=
                    NewMSatFromSatoshis DefaultOnChainHtlcAmount in
                  Returns (htlcAmountMSat, Some (Bytes htlc'), None)
                end
            end
          end
      end
    end.

End Shaper.

(** ** The rule the specification gives for the unit count *)

(** The quotient [t / b] rounded to the nearest tenth, counted in tenths:
    the integer nearest to [10 * t / b], a half going up. *)
Definition round_to_tenths (t b : N) : N := (20 * t + b) / (2 * b).

(** "[numUnits = floor(round(totalNativeAmount / bidPrice, 1 decimal))]":
    the whole units of the quotient rounded to one decimal. *)
Definition numUnits_spec (totalNativeAmount bidPrice : N) : N :=
  round_to_tenths totalNativeAmount bidPrice / 10.

(** ** A small codec to run the shaper on concrete inputs *)

Module Demo.

Definition byte_of (n : N) : Byte.byte :=
  default Byte.x00 (Byte.of_N (n mod 256)).

Definition outputs_of (blob : Blob) : list AssetOutput :=
  map (fun b => MkAssetOutput (Byte.to_N b)) blob.

(** One byte per output amount; the empty blob does not decode. *)
Definition decode_open_channel (blob : Blob) : result OpenChannel :=
  match blob with
  | [] => Fail (ErrCodec [])
  | _ => Ok (MkOpenChannel (outputs_of blob))
  end.

Definition decode_commitment (blob : Blob) : result Commitment :=
  match blob with
  | [] => Fail (ErrCodec [])
  | _ => Ok (MkCommitment (outputs_of blob))
  end.

(** First byte: the asset amount (0 for none); the rest: the quote
    identifier (empty for none). *)
Definition decode_htlc (blob : Blob) : result Htlc :=
  match blob with
  | [] => Fail (ErrCodec [])
  | amt :: id =>
    Ok {| Balances :=
            if Byte.to_N amt =? 0 then []
            else [NewAssetBalance [] (Byte.to_N amt)];
          RfqID := match id with [] => None | _ => Some id end |}
  end.

Definition htlc_bytes (h : Htlc) : Blob :=
  byte_of (Sum (Balances h)) :: default [] (RfqID h).

(** The record values, in key order. *)
Definition serialize (records : gmap N Blob) : result Blob :=
  Ok (concat (map snd (map_to_list records))).

(** Big-endian reading of the identifier's last eight bytes. *)
Definition scid (id : ID) : N :=
  fold_left (fun acc b => U64.wrap64 (acc * 256 + Byte.to_N b)) id 0.

Definition codec : TlvCodec := {|
  DecodeOpenChannel := decode_open_channel;
  DecodeCommitment := decode_commitment;
  DecodeHtlc := decode_htlc;
  Bytes := htlc_bytes;
  Serialize := serialize;
  Scid := scid
|}.

Definition shaper (quotes : gmap N SellAccept) : AuxTrafficShaper :=
  NewAuxTrafficShaper (MkTrafficShaperConfig (MkManager quotes)).

Definition asset7 : AssetID := [Byte.x07].

(** One accepted quote, under SCID 7. *)
Definition quotes_of (bidPrice : N) : gmap N SellAccept :=
  {[ 7 := MkSellAccept bidPrice (Some asset7) ]}.

(** A custom-records map holding one record, of type 65536. *)
Definition records_of (blob : Blob) : gmap N Blob := {[ 65536 := blob ]}.

End Demo.

(** ** Start and stop *)

(** The lines [Start] and [Stop] hand to [log.Info]. *)
Inductive logline : Type :=
| StartingAuxTrafficShaper   (* "Starting aux traffic shaper" *)
| StoppingAuxTrafficShaper.  (* "Stopping aux traffic shaper" *)

(** The part of an [AuxTrafficShaper] that [Start] and [Stop] touch: the
    two [sync.Once] guards (whether [Do] has run its function), the [Quit]
    channel of the [ContextGuard] (closed or not) and the lines logged so
    far, oldest first.  Calls are taken one after the other, and the wait
    group is left out: nothing in this file adds to it, so [Wg.Wait()]
    returns at once. *)
Record Lifecycle : Type := MkLifecycle {
  startOnce : bool;
  stopOnce : bool;
  QuitClosed : bool;
  logged : list logline
}.

(** The guard as [NewAuxTrafficShaper] makes it: nothing has run, and
    [Quit] is a fresh channel. *)
Definition NewLifecycle : Lifecycle :=
  {| startOnce := false; stopOnce := false; QuitClosed := false;
     logged := [] |}.

Definition log_Info (line : logline) (g : Lifecycle) : Lifecycle :=
  {| startOnce := startOnce g; stopOnce := stopOnce g;
     QuitClosed := QuitClosed g; logged := logged g ++ [line] |}.

(** [close(s.Quit)]: closing a closed channel panics. *)
Definition close_Quit (g : Lifecycle) : outcome Lifecycle :=
  if QuitClosed g then Panics
  else Returns {| startOnce := startOnce g; stopOnce := stopOnce g;
                  QuitClosed := true; logged := logged g |}.

Definition set_startOnce (g : Lifecycle) : Lifecycle :=
  {| startOnce := true; stopOnce := stopOnce g;
     QuitClosed := QuitClosed g; logged := logged g |}.

Definition set_stopOnce (g : Lifecycle) : Lifecycle :=
  {| startOnce := startOnce g; stopOnce := true;
     QuitClosed := QuitClosed g; logged := logged g |}.

(** [once.Do(f)]: [f] runs if no call of [Do] has run it before, and the
    guard is marked when [f] is over. *)
Definition Once_Do (done : Lifecycle -> bool)
    (set_done : Lifecycle -> Lifecycle)
    (f : Lifecycle -> outcome Lifecycle) (g : Lifecycle) : outcome Lifecycle :=
  if done g then Returns g
  else
    match f g with
    | Returns g' => Returns (set_done g')
    | Panics => Panics
    end.

(** [Start]: the new state and [startErr], which nothing assigns. *)
Definition Start (g : Lifecycle) : outcome (Lifecycle * option error) :=
  let startErr : option error := None in
  match Once_Do startOnce set_startOnce
          (fun g => Returns (log_Info StartingAuxTrafficShaper g)) g with
  | Returns g' => Returns (g', startErr)
  | Panics => Panics
  end.

(** [Stop]: log, close [Quit], wait. *)
Definition Stop (g : Lifecycle) : outcome (Lifecycle * option error) :=
  let stopErr : option error := None in
  match Once_Do stopOnce set_stopOnce
          (fun g => close_Quit (log_Info StoppingAuxTrafficShaper g)) g with
  | Returns g' => Returns (g', stopErr)
  | Panics => Panics
  end.

(** A caller's sequence of [Start] and [Stop] calls, run in order; the
    errors returned are collected, and a panic ends the run. *)
Inductive call : Type :=
| CallStart
| CallStop.

Definition do_call (k : call) (g : Lifecycle)
    : outcome (Lifecycle * option error) :=
  match k with
  | CallStart => Start g
  | CallStop => Stop g
  end.

Fixpoint run (calls : list call) (g : Lifecycle)
    : outcome (Lifecycle * list (option error)) :=
  match calls with
  | [] => Returns (g, [])
  | k :: rest =>
    match do_call k g with
    | Panics => Panics
    | Returns (g', err) =>
      match run rest g' with
      | Panics => Panics
      | Returns (g'', errs) => Returns (g'', err :: errs)
      end
    end
  end.

(** What the two guards keep true: [Quit] is closed exactly when [Stop]'s
    guard has fired, each line is logged exactly when its guard has fired,
    and no line is logged twice. *)
Definition guard_inv (g : Lifecycle) : Prop :=
  QuitClosed g = stopOnce g
  /\ (In StartingAuxTrafficShaper (logged g) <-> startOnce g = true)
  /\ (In StoppingAuxTrafficShaper (logged g) <-> stopOnce g = true)
  /\ NoDup (logged g).

(** * Properties *)

(** ** 64-bit arithmetic *)

Module U64Facts.

Import U64.

Lemma modulus_pos : 0 < modulus.
Proof. reflexivity. Qed.

Lemma wrap64_small (x : N) : x < modulus -> wrap64 x = x.
Proof. intros H. unfold wrap64. now apply N.mod_small. Qed.

Lemma wrap64_le (x : N) : wrap64 x <= x.
Proof. unfold wrap64. apply N.Div0.mod_le. Qed.

Lemma wrap64_lt (x : N) : wrap64 x < modulus.
Proof. unfold wrap64. apply N.mod_lt. discriminate. Qed.

Lemma mul_exact (a b : N) : a * b < modulus -> mul a b = a * b.
Proof. apply wrap64_small. Qed.

Lemma mul_le (a b : N) : mul a b <= a * b.
Proof. apply wrap64_le. Qed.

End U64Facts.

(** ** The unit count *)

(** As long as [totalAmount * 10] stays in the 64-bit range, the two-step
    division is the plain truncating quotient. *)
Lemma numAssetUnits_plain_division (totalAmount mSatPerAssetUnit : N) :
  totalAmount * 10 < U64.modulus ->
  mSatPerAssetUnit <> 0 ->
  numAssetUnits totalAmount mSatPerAssetUnit = totalAmount / mSatPerAssetUnit.
Proof.
  intros Hrange Hb. unfold numAssetUnits.
  rewrite U64Facts.mul_exact by exact Hrange.
  rewrite N.Div0.div_div.
  apply N.Div0.div_mul_cancel_r. discriminate.
Qed.

(** A price above ten times the amount buys no unit at all. *)
Lemma numAssetUnits_zero (totalAmount mSatPerAssetUnit : N) :
  10 * totalAmount < mSatPerAssetUnit ->
  numAssetUnits totalAmount mSatPerAssetUnit = 0.
Proof.
  intros Hlt. unfold numAssetUnits.
  assert (Hle := U64Facts.mul_le totalAmount 10).
  rewrite (N.div_small (U64.mul totalAmount 10) mSatPerAssetUnit) by lia.
  reflexivity.
Qed.

(** Ten times the cost of the units is within the 64-bit product the
    division starts from. *)
Lemma numAssetUnits_cost_le_product (totalAmount mSatPerAssetUnit : N) :
  10 * (numAssetUnits totalAmount mSatPerAssetUnit * mSatPerAssetUnit)
    <= U64.mul totalAmount 10.
Proof.
  unfold numAssetUnits.
  set (w := U64.mul totalAmount 10).
  assert (H1 := N.Div0.mul_div_le w mSatPerAssetUnit).
  assert (H2 := N.Div0.mul_div_le (w / mSatPerAssetUnit) 10).
  set (q1 := w / mSatPerAssetUnit) in *.
  set (q := q1 / 10) in *.
  nia.
Qed.

(** The unit count is at most a tenth of that product. *)
Lemma numAssetUnits_le_product_tenth (totalAmount mSatPerAssetUnit : N) :
  numAssetUnits totalAmount mSatPerAssetUnit <= U64.mul totalAmount 10 / 10.
Proof.
  unfold numAssetUnits. apply N.Div0.div_le_mono.
  destruct (N.eq_dec mSatPerAssetUnit 0) as [-> | Hb].
  - rewrite N.div_0_r. lia.
  - apply N.Div0.div_le_upper_bound.
    assert (1 <= mSatPerAssetUnit) by lia. nia.
Qed.

(** [round_to_tenths t b] is the number of tenths nearest to [t / b]:
    it is within half a tenth of the exact quotient. *)
Lemma round_to_tenths_nearest (t b : N) :
  b <> 0 ->
  2 * b * round_to_tenths t b <= 20 * t + b
  /\ 20 * t + b < 2 * b * (round_to_tenths t b + 1).
Proof.
  intros Hb. unfold round_to_tenths.
  assert (H2b : 2 * b <> 0) by lia.
  split.
  - apply N.Div0.mul_div_le.
  - rewrite N.add_1_r. apply N.mul_succ_div_gt. exact H2b.
Qed.

(** ** The shaper's entry points *)

(** Case analysis on the comparisons the code branches on. *)
Ltac branch_tests :=
  repeat match goal with
  | |- context [N.eqb ?a ?b] => destruct (N.eqb_spec a b)
  | |- context [N.leb ?a ?b] => destruct (N.leb_spec a b)
  | |- context [N.ltb ?a ?b] => destruct (N.ltb_spec a b)
  end; simpl.

Section ShaperFacts.

Context {codec : TlvCodec}.

Implicit Types (s : AuxTrafficShaper) (c : Commitment) (h : Htlc).
Implicit Types (records : gmap N Blob) (q : SellAccept).

(** The sentinel of the already-priced branch, as a number. *)
Lemma sentinel_value :
  NewMSatFromSatoshis MaxSatoshi = 2100000000000000000.
Proof. reflexivity. Qed.

(** The on-chain amount of a rewritten HTLC, as a number. *)
Lemma htlcAmountMSat_value :
  NewMSatFromSatoshis DefaultOnChainHtlcAmount = 354000.
Proof. reflexivity. Qed.

(** A map without entries is the empty map. *)
Lemma len_zero records : Nat.eqb (size records) 0 = true <-> records = ∅.
Proof. rewrite Nat.eqb_eq. apply map_size_empty_iff. Qed.

Lemma len_nonzero records : records <> ∅ -> Nat.eqb (size records) 0 = false.
Proof.
  intros Hne. apply Nat.eqb_neq. intros Hsz. apply Hne.
  now apply map_size_empty_iff.
Qed.

(** The rewrite path of [ProduceHtlcExtraData], once and for all: records
    present and decoded, no amount yet, a quote found under the derived
    SCID, with a non-zero price and an asset identifier. *)
Lemma ProduceHtlcExtraData_rewrite s totalAmount records htlcBlob h rfqID q
    assetID :
  records <> ∅ ->
  Serialize records = Ok htlcBlob ->
  DecodeHtlc htlcBlob = Ok h ->
  Sum (Balances h) = 0 ->
  RfqID h = Some rfqID ->
  PeerAcceptedSellQuotes (RfqManager (cfg s)) !! Scid rfqID = Some q ->
  BidPrice q <> 0 ->
  AssetID_opt q = Some assetID ->
  ProduceHtlcExtraData s totalAmount records =
    Returns (NewMSatFromSatoshis DefaultOnChainHtlcAmount,
             Some (Bytes (set_Balances
               [NewAssetBalance assetID
                  (numAssetUnits totalAmount (BidPrice q))] h)),
             None).
Proof.
  intros Hne Hser Hdec Hsum Hid Hq Hbid Hasset.
  unfold ProduceHtlcExtraData.
  rewrite (len_nonzero _ Hne), Hser, Hdec, Hsum, Hid.
  simpl. rewrite Hq. simpl.
  destruct (N.eqb_spec (BidPrice q) 0) as [Heq | _]; [contradiction |].
  now rewrite Hasset.
Qed.

(** The pass-through of an already-priced HTLC. *)
Lemma ProduceHtlcExtraData_already_priced_path s totalAmount records htlcBlob h :
  records <> ∅ ->
  Serialize records = Ok htlcBlob ->
  DecodeHtlc htlcBlob = Ok h ->
  Sum (Balances h) <> 0 ->
  ProduceHtlcExtraData s totalAmount records
    = Returns (totalAmount, Some htlcBlob, None).
Proof.
  intros Hne Hser Hdec Hsum.
  unfold ProduceHtlcExtraData.
  rewrite (len_nonzero _ Hne), Hser, Hdec.
  destruct (N.ltb_spec 0 (Sum (Balances h))); [reflexivity | lia].
Qed.

End ShaperFacts.

Section ShaperClaims.

Context {codec : TlvCodec}.

Implicit Types (s : AuxTrafficShaper) (c : Commitment) (h : Htlc).
Implicit Types (records : gmap N Blob) (q : SellAccept).

(** C5. [HandleTraffic] is a total case analysis on the optional funding
    blob: absent gives [(false, nil)]; present and decodable as an
    open-channel record gives [(true, nil)]; present and not decodable gives
    [(false, err)] with the decoder's error; [(true, err)] never occurs.
    The result is a function of the blob alone: neither the shaper nor the
    channel identifier enters it, and there is no state to change. *)
Theorem HandleTraffic_classifies s cid :
  HandleTraffic s cid None = (false, None)
  /\ (forall blob oc,
        DecodeOpenChannel blob = Ok oc ->
        HandleTraffic s cid (Some blob) = (true, None))
  /\ (forall blob err,
        DecodeOpenChannel blob = Fail err ->
        HandleTraffic s cid (Some blob) = (false, Some err))
  /\ (forall fundingBlob err, HandleTraffic s cid fundingBlob <> (true, Some err))
  /\ (forall s' cid' fundingBlob,
        HandleTraffic s' cid' fundingBlob = HandleTraffic s cid fundingBlob).
Proof.
  repeat split.
  - intros blob oc Hdec. unfold HandleTraffic. simpl. now rewrite Hdec.
  - intros blob err Hdec. unfold HandleTraffic. simpl. now rewrite Hdec.
  - intros [blob |] err; unfold HandleTraffic; simpl.
    + destruct (DecodeOpenChannel blob); discriminate.
    + discriminate.
Qed.

(** C3, as amended. For decodable blobs whose HTLC carries a non-zero asset
    amount that the local balance covers, [PaymentBandwidth] succeeds with
    the sentinel [NewMSatFromSatoshis MaxSatoshi], whatever the quote
    identifier and the quote table are.  The sentinel is the bitcoin supply
    in milli-satoshi, 2.1e18, which lies below the largest [uint64]. *)
Theorem PaymentBandwidth_already_priced s htlcBlob commitmentBlob c h :
  DecodeCommitment commitmentBlob = Ok c ->
  DecodeHtlc htlcBlob = Ok h ->
  Sum (Balances h) <> 0 ->
  Sum (Balances h) <= OutputSum (LocalOutputs c) ->
  PaymentBandwidth s (Some htlcBlob) (Some commitmentBlob)
    = (NewMSatFromSatoshis MaxSatoshi, None)
  /\ NewMSatFromSatoshis MaxSatoshi = 2100000000000000000
  /\ NewMSatFromSatoshis MaxSatoshi < U64.max.
Proof.
  intros Hc Hh Hnz Hle. split; [| split; reflexivity].
  unfold PaymentBandwidth. rewrite Hc, Hh. simpl.
  branch_tests; try reflexivity; lia.
Qed.

(** C6. For decodable blobs, when the already-priced branch does not apply
    (the HTLC's amount is zero or exceeds the local balance) and the HTLC
    has no quote identifier, [PaymentBandwidth] returns [(0, nil)]: zero
    bandwidth, and no error. *)
Theorem PaymentBandwidth_no_rfq_id s htlcBlob commitmentBlob c h :
  DecodeCommitment commitmentBlob = Ok c ->
  DecodeHtlc htlcBlob = Ok h ->
  Sum (Balances h) = 0 \/ OutputSum (LocalOutputs c) < Sum (Balances h) ->
  RfqID h = None ->
  PaymentBandwidth s (Some htlcBlob) (Some commitmentBlob) = (0, None).
Proof.
  intros Hc Hh Hnot Hid.
  unfold PaymentBandwidth. rewrite Hc, Hh. simpl.
  branch_tests; rewrite ?Hid; try reflexivity; lia.
Qed.

(** C2, as amended. In the quote-found branch (amount zero or above the
    local balance, quote identifier present, quote found under its SCID)
    [PaymentBandwidth] returns the 64-bit product of the local balance and
    the bid price, with no error: the product reduced modulo 2^64, hence
    the exact product whenever that is below 2^64. *)
Theorem PaymentBandwidth_quote_found s htlcBlob commitmentBlob c h rfqID q :
  DecodeCommitment commitmentBlob = Ok c ->
  DecodeHtlc htlcBlob = Ok h ->
  Sum (Balances h) = 0 \/ OutputSum (LocalOutputs c) < Sum (Balances h) ->
  RfqID h = Some rfqID ->
  PeerAcceptedSellQuotes (RfqManager (cfg s)) !! Scid rfqID = Some q ->
  PaymentBandwidth s (Some htlcBlob) (Some commitmentBlob)
    = ((OutputSum (LocalOutputs c) * BidPrice q) mod 2 ^ 64, None)
  /\ (OutputSum (LocalOutputs c) * BidPrice q < 2 ^ 64 ->
      PaymentBandwidth s (Some htlcBlob) (Some commitmentBlob)
        = (OutputSum (LocalOutputs c) * BidPrice q, None)).
Proof.
  intros Hc Hh Hnot Hid Hq.
  assert (Hres : PaymentBandwidth s (Some htlcBlob) (Some commitmentBlob)
                 = (U64.mul (OutputSum (LocalOutputs c)) (BidPrice q), None)).
  { unfold PaymentBandwidth. rewrite Hc, Hh. simpl.
    branch_tests; rewrite ?Hid, ?Hq; try reflexivity; lia. }
  split.
  - exact Hres.
  - intros Hfit. rewrite Hres. now rewrite U64Facts.mul_exact.
Qed.

(** C4. A quote identifier that is present but has no accepted quote under
    its SCID makes both entry points fail with the quote-not-found error:
    [PaymentBandwidth] when its already-priced branch does not apply,
    [ProduceHtlcExtraData] when the records decode to an HTLC without an
    amount.  The outcome carries an error, so it is not the zero-bandwidth
    success [(0, nil)]. *)
Theorem quote_not_found_is_an_error s :
  (forall htlcBlob commitmentBlob c h rfqID,
     DecodeCommitment commitmentBlob = Ok c ->
     DecodeHtlc htlcBlob = Ok h ->
     Sum (Balances h) = 0 \/ OutputSum (LocalOutputs c) < Sum (Balances h) ->
     RfqID h = Some rfqID ->
     PeerAcceptedSellQuotes (RfqManager (cfg s)) !! Scid rfqID = None ->
     PaymentBandwidth s (Some htlcBlob) (Some commitmentBlob)
       = (0, Some (ErrNoAcceptedQuote rfqID (Scid rfqID)))
     /\ PaymentBandwidth s (Some htlcBlob) (Some commitmentBlob) <> (0, None))
  /\ (forall totalAmount records htlcBlob h rfqID,
        records <> ∅ ->
        Serialize records = Ok htlcBlob ->
        DecodeHtlc htlcBlob = Ok h ->
        Sum (Balances h) = 0 ->
        RfqID h = Some rfqID ->
        PeerAcceptedSellQuotes (RfqManager (cfg s)) !! Scid rfqID = None ->
        ProduceHtlcExtraData s totalAmount records
          = Returns (0, None, Some (ErrNoAcceptedQuote rfqID (Scid rfqID)))).
Proof.
  split.
  - intros htlcBlob commitmentBlob c h rfqID Hc Hh Hnot Hid Hq.
    assert (Hres : PaymentBandwidth s (Some htlcBlob) (Some commitmentBlob)
                   = (0, Some (ErrNoAcceptedQuote rfqID (Scid rfqID)))).
    { unfold PaymentBandwidth. rewrite Hc, Hh. simpl.
      branch_tests; rewrite ?Hid, ?Hq; try reflexivity; lia. }
    split; [exact Hres | rewrite Hres; discriminate].
  - intros totalAmount records htlcBlob h rfqID Hne Hser Hdec Hsum Hid Hq.
    unfold ProduceHtlcExtraData.
    rewrite (len_nonzero _ Hne), Hser, Hdec, Hsum, Hid. simpl.
    now rewrite Hq.
Qed.

End ShaperClaims.

Section RewriterClaims.

Context {codec : TlvCodec}.

Implicit Types (s : AuxTrafficShaper) (h : Htlc).
Implicit Types (records : gmap N Blob) (q : SellAccept).

(** C7. With no custom records [ProduceHtlcExtraData] hands back
    [(totalAmount, nil, nil)]: the amount unchanged, no blob, no error, for
    every codec and every quote table, neither of which is consulted. *)
Theorem ProduceHtlcExtraData_no_records s totalAmount :
  ProduceHtlcExtraData s totalAmount ∅ = Returns (totalAmount, None, None).
Proof. reflexivity. Qed.

(** C8. Non-empty custom records whose serialisation decodes to an HTLC
    with a non-zero asset amount come back as
    [(totalAmount, serialised blob, nil)], whatever the quote table holds. *)
Theorem ProduceHtlcExtraData_already_priced s totalAmount records htlcBlob h :
  records <> ∅ ->
  Serialize records = Ok htlcBlob ->
  DecodeHtlc htlcBlob = Ok h ->
  Sum (Balances h) <> 0 ->
  ProduceHtlcExtraData s totalAmount records
    = Returns (totalAmount, Some htlcBlob, None).
Proof.
  intros Hne Hser Hdec Hsum.
  unfold ProduceHtlcExtraData.
  rewrite (len_nonzero _ Hne), Hser, Hdec.
  destruct (N.ltb_spec 0 (Sum (Balances h))); [reflexivity | lia].
Qed.

(** C9, as amended. On the rewrite path (records decoded, no amount yet,
    quote found with a non-zero price and an asset identifier) the amount
    returned is the fixed [NewMSatFromSatoshis DefaultOnChainHtlcAmount],
    whatever [totalAmount] is.  Every successful call returns either that
    amount or, on the pass-through paths, [totalAmount] itself. *)
Theorem ProduceHtlcExtraData_adjusted_amount s :
  (forall totalAmount records htlcBlob h rfqID q assetID,
     records <> ∅ ->
     Serialize records = Ok htlcBlob ->
     DecodeHtlc htlcBlob = Ok h ->
     Sum (Balances h) = 0 ->
     RfqID h = Some rfqID ->
     PeerAcceptedSellQuotes (RfqManager (cfg s)) !! Scid rfqID = Some q ->
     BidPrice q <> 0 ->
     AssetID_opt q = Some assetID ->
     exists newBlob,
       ProduceHtlcExtraData s totalAmount records
         = Returns (NewMSatFromSatoshis DefaultOnChainHtlcAmount,
                    Some newBlob, None))
  /\ (forall totalAmount records amount blob,
        ProduceHtlcExtraData s totalAmount records
          = Returns (amount, blob, None) ->
        amount = totalAmount
        \/ amount = NewMSatFromSatoshis DefaultOnChainHtlcAmount).
Proof.
  split.
  - intros totalAmount records htlcBlob h rfqID q assetID
           Hne Hser Hdec Hsum Hid Hq Hbid Hasset.
    eexists.
    eapply ProduceHtlcExtraData_rewrite; eassumption.
  - intros totalAmount records amount blob.
    unfold ProduceHtlcExtraData.
    destruct (Nat.eqb (size records) 0); [intros [= <- _]; now left |].
    destruct (Serialize records) as [htlcBlob | err]; [| discriminate].
    destruct (DecodeHtlc htlcBlob) as [h | err]; [| discriminate].
    destruct (0 <? Sum (Balances h)); [intros [= <- _]; now left |].
    destruct (RfqID h) as [rfqID |]; [| discriminate].
    simpl.
    destruct (PeerAcceptedSellQuotes (RfqManager (cfg s)) !! Scid rfqID)
      as [q |]; [| discriminate].
    simpl.
    destruct (BidPrice q =? 0); [discriminate |].
    destruct (AssetID_opt q); [| discriminate].
    intros [= <- _]. now right.
Qed.

(** C10. A found quote with an asset identifier whose price exceeds ten
    times [totalAmount] gives a unit count of zero, and the call still
    succeeds: it returns the on-chain minimum and the encoding of the HTLC
    whose balances are the single entry [(assetID, 0)]. *)
Theorem ProduceHtlcExtraData_zero_units s totalAmount records htlcBlob h rfqID
    q assetID :
  records <> ∅ ->
  Serialize records = Ok htlcBlob ->
  DecodeHtlc htlcBlob = Ok h ->
  Sum (Balances h) = 0 ->
  RfqID h = Some rfqID ->
  PeerAcceptedSellQuotes (RfqManager (cfg s)) !! Scid rfqID = Some q ->
  AssetID_opt q = Some assetID ->
  10 * totalAmount < BidPrice q ->
  numAssetUnits totalAmount (BidPrice q) = 0
  /\ ProduceHtlcExtraData s totalAmount records
       = Returns (NewMSatFromSatoshis DefaultOnChainHtlcAmount,
                  Some (Bytes (set_Balances [NewAssetBalance assetID 0] h)),
                  None).
Proof.
  intros Hne Hser Hdec Hsum Hid Hq Hasset Hprice.
  assert (Hzero := numAssetUnits_zero _ _ Hprice).
  split; [exact Hzero |].
  rewrite <- Hzero.
  eapply ProduceHtlcExtraData_rewrite; try eassumption. lia.
Qed.

End RewriterClaims.

(** ** Runs on concrete inputs *)

(** An open-channel blob that decodes is classified as an asset channel, one
    that does not decode is reported with the decoder's error. *)
Lemma HandleTraffic_classifies_witness :
  HandleTraffic (codec := Demo.codec) (Demo.shaper ∅) 0 (Some [Byte.x01])
    = (true, None)
  /\ HandleTraffic (codec := Demo.codec) (Demo.shaper ∅) 0 (Some [])
       = (false, Some (ErrCodec [])).
Proof.
  destruct (HandleTraffic_classifies (codec := Demo.codec) (Demo.shaper ∅) 0)
    as (_ & Hok & Hfail & _).
  split.
  - apply (Hok [Byte.x01] (MkOpenChannel [MkAssetOutput 1])). reflexivity.
  - apply (Hfail [] (ErrCodec [])). reflexivity.
Defined.

(** An HTLC of 3 units on a channel with 5 local units, no quote at all. *)
Lemma PaymentBandwidth_already_priced_witness :
  PaymentBandwidth (codec := Demo.codec) (Demo.shaper ∅)
    (Some [Byte.x03]) (Some [Byte.x05])
    = (NewMSatFromSatoshis MaxSatoshi, None)
  /\ NewMSatFromSatoshis MaxSatoshi = 2100000000000000000
  /\ NewMSatFromSatoshis MaxSatoshi < U64.max.
Proof.
  apply (PaymentBandwidth_already_priced (codec := Demo.codec) (Demo.shaper ∅)
           [Byte.x03] [Byte.x05]
           (MkCommitment [MkAssetOutput 5])
           (MkHtlc [NewAssetBalance [] 3] None)).
  - reflexivity.
  - reflexivity.
  - vm_compute. discriminate.
  - vm_compute. discriminate.
Defined.

(** C3, as stated, fails: on the same input the hypotheses hold and the
    value returned is not the largest value a [uint64] native-unit amount
    can represent. *)
Lemma PaymentBandwidth_sentinel_below_uint64_max :
  DecodeCommitment (TlvCodec := Demo.codec) [Byte.x05]
    = Ok (MkCommitment [MkAssetOutput 5])
  /\ DecodeHtlc (TlvCodec := Demo.codec) [Byte.x03]
       = Ok (MkHtlc [NewAssetBalance [] 3] None)
  /\ Sum [NewAssetBalance [] 3] = 3
  /\ OutputSum [MkAssetOutput 5] = 5
  /\ PaymentBandwidth (codec := Demo.codec) (Demo.shaper ∅)
       (Some [Byte.x03]) (Some [Byte.x05])
       = (2100000000000000000, None)
  /\ PaymentBandwidth (codec := Demo.codec) (Demo.shaper ∅)
       (Some [Byte.x03]) (Some [Byte.x05])
       <> (U64.max, None).
Proof.
  repeat split; try reflexivity.
  vm_compute. discriminate.
Qed.

(** An HTLC of 9 units, more than the 5 local ones, and no quote
    identifier. *)
Lemma PaymentBandwidth_no_rfq_id_witness :
  PaymentBandwidth (codec := Demo.codec) (Demo.shaper (Demo.quotes_of 2))
    (Some [Byte.x09]) (Some [Byte.x05])
    = (0, None).
Proof.
  apply (PaymentBandwidth_no_rfq_id (codec := Demo.codec)
           (Demo.shaper (Demo.quotes_of 2)) [Byte.x09] [Byte.x05]
           (MkCommitment [MkAssetOutput 5])
           (MkHtlc [NewAssetBalance [] 9] None)).
  - reflexivity.
  - reflexivity.
  - right. vm_compute. reflexivity.
  - reflexivity.
Defined.

(** Scenario B: 500 local units (two outputs of 250), no amount in the
    HTLC, a quote at 2 milli-satoshi per unit: 1000 milli-satoshi. *)
Lemma PaymentBandwidth_quote_found_witness :
  PaymentBandwidth (codec := Demo.codec) (Demo.shaper (Demo.quotes_of 2))
    (Some [Byte.x00; Byte.x07]) (Some [Byte.xfa; Byte.xfa])
    = (1000, None).
Proof.
  apply (PaymentBandwidth_quote_found (codec := Demo.codec)
           (Demo.shaper (Demo.quotes_of 2))
           [Byte.x00; Byte.x07] [Byte.xfa; Byte.xfa]
           (MkCommitment [MkAssetOutput 250; MkAssetOutput 250])
           (MkHtlc [] (Some [Byte.x07])) [Byte.x07]
           (MkSellAccept 2 (Some Demo.asset7))).
  - reflexivity.
  - reflexivity.
  - left. reflexivity.
  - reflexivity.
  - vm_compute. reflexivity.
  - vm_compute. reflexivity.
Defined.

(** C2, as stated, fails: with 2 local units and a quote at 2^63
    milli-satoshi per unit the quote-found branch is reached, the product
    2^64 does not fit a [uint64], and the call returns 0 with no error. *)
Lemma PaymentBandwidth_product_wraps :
  DecodeCommitment (TlvCodec := Demo.codec) [Byte.x02]
    = Ok (MkCommitment [MkAssetOutput 2])
  /\ DecodeHtlc (TlvCodec := Demo.codec) [Byte.x00; Byte.x07]
       = Ok (MkHtlc [] (Some [Byte.x07]))
  /\ Sum [] = 0
  /\ Demo.quotes_of (2 ^ 63) !! Scid (TlvCodec := Demo.codec) [Byte.x07]
       = Some (MkSellAccept (2 ^ 63) (Some Demo.asset7))
  /\ U64.max < OutputSum [MkAssetOutput 2] * 2 ^ 63
  /\ PaymentBandwidth (codec := Demo.codec)
       (Demo.shaper (Demo.quotes_of (2 ^ 63)))
       (Some [Byte.x00; Byte.x07]) (Some [Byte.x02])
       = (0, None).
Proof.
  repeat split; vm_compute; reflexivity.
Qed.

(** A quote identifier with SCID 9 against a table that only knows SCID 7:
    both entry points report the missing quote. *)
Lemma quote_not_found_is_an_error_witness :
  PaymentBandwidth (codec := Demo.codec) (Demo.shaper (Demo.quotes_of 2))
    (Some [Byte.x00; Byte.x09]) (Some [Byte.x05])
    = (0, Some (ErrNoAcceptedQuote [Byte.x09] 9))
  /\ ProduceHtlcExtraData (codec := Demo.codec)
       (Demo.shaper (Demo.quotes_of 2)) 12345
       (Demo.records_of [Byte.x00; Byte.x09])
       = Returns (0, None, Some (ErrNoAcceptedQuote [Byte.x09] 9)).
Proof.
  destruct (quote_not_found_is_an_error (codec := Demo.codec)
              (Demo.shaper (Demo.quotes_of 2))) as [Hbandwidth Hproduce].
  split.
  - apply (Hbandwidth [Byte.x00; Byte.x09] [Byte.x05]
             (MkCommitment [MkAssetOutput 5])
             (MkHtlc [] (Some [Byte.x09])) [Byte.x09]).
    + reflexivity.
    + reflexivity.
    + left. reflexivity.
    + reflexivity.
    + vm_compute. reflexivity.
  - apply (Hproduce 12345 (Demo.records_of [Byte.x00; Byte.x09])
             [Byte.x00; Byte.x09] (MkHtlc [] (Some [Byte.x09])) [Byte.x09]).
    + vm_compute. discriminate.
    + vm_compute. reflexivity.
    + reflexivity.
    + reflexivity.
    + reflexivity.
    + vm_compute. reflexivity.
Defined.

(** Records that already carry 5 asset units: amount and blob untouched. *)
Lemma ProduceHtlcExtraData_already_priced_witness :
  ProduceHtlcExtraData (codec := Demo.codec) (Demo.shaper ∅) 12345
    (Demo.records_of [Byte.x05; Byte.x07])
    = Returns (12345, Some [Byte.x05; Byte.x07], None).
Proof.
  apply (ProduceHtlcExtraData_already_priced (codec := Demo.codec)
           (Demo.shaper ∅) 12345 (Demo.records_of [Byte.x05; Byte.x07])
           [Byte.x05; Byte.x07]
           (MkHtlc [NewAssetBalance [] 5] (Some [Byte.x07]))).
  - vm_compute. discriminate.
  - vm_compute. reflexivity.
  - reflexivity.
  - vm_compute. discriminate.
Defined.

(** A rewrite at 1000 milli-satoshi per unit: the amount that comes back is
    the on-chain minimum, not the 12345 that went in. *)
Lemma ProduceHtlcExtraData_adjusted_amount_witness :
  exists newBlob,
    ProduceHtlcExtraData (codec := Demo.codec)
      (Demo.shaper (Demo.quotes_of 1000)) 12345
      (Demo.records_of [Byte.x00; Byte.x07])
      = Returns (NewMSatFromSatoshis DefaultOnChainHtlcAmount,
                 Some newBlob, None).
Proof.
  apply (proj1 (ProduceHtlcExtraData_adjusted_amount (codec := Demo.codec)
                  (Demo.shaper (Demo.quotes_of 1000)))
           12345 (Demo.records_of [Byte.x00; Byte.x07])
           [Byte.x00; Byte.x07] (MkHtlc [] (Some [Byte.x07])) [Byte.x07]
           (MkSellAccept 1000 (Some Demo.asset7)) Demo.asset7).
  - vm_compute. discriminate.
  - vm_compute. reflexivity.
  - reflexivity.
  - reflexivity.
  - reflexivity.
  - vm_compute. reflexivity.
  - vm_compute. discriminate.
  - reflexivity.
Defined.

(** C9, as stated, fails: two successful calls whose amount is below the
    on-chain minimum of 354000 milli-satoshi, one without records and one
    with an already-priced HTLC. *)
Lemma ProduceHtlcExtraData_success_below_dust_floor :
  ProduceHtlcExtraData (codec := Demo.codec) (Demo.shaper ∅) 0 ∅
    = Returns (0, None, None)
  /\ ProduceHtlcExtraData (codec := Demo.codec) (Demo.shaper ∅) 1000
       (Demo.records_of [Byte.x05])
       = Returns (1000, Some [Byte.x05], None)
  /\ 1000 < NewMSatFromSatoshis DefaultOnChainHtlcAmount.
Proof.
  repeat split; vm_compute; reflexivity.
Qed.

(** 50 milli-satoshi against a price of 1000 per unit: zero units are
    written, and the call succeeds. *)
Lemma ProduceHtlcExtraData_zero_units_witness :
  numAssetUnits 50 1000 = 0
  /\ ProduceHtlcExtraData (codec := Demo.codec)
       (Demo.shaper (Demo.quotes_of 1000)) 50
       (Demo.records_of [Byte.x00; Byte.x07])
       = Returns (NewMSatFromSatoshis DefaultOnChainHtlcAmount,
                  Some (Bytes (TlvCodec := Demo.codec)
                          (set_Balances [NewAssetBalance Demo.asset7 0]
                             (MkHtlc [] (Some [Byte.x07])))),
                  None).
Proof.
  apply (ProduceHtlcExtraData_zero_units (codec := Demo.codec)
           (Demo.shaper (Demo.quotes_of 1000)) 50
           (Demo.records_of [Byte.x00; Byte.x07])
           [Byte.x00; Byte.x07] (MkHtlc [] (Some [Byte.x07])) [Byte.x07]
           (MkSellAccept 1000 (Some Demo.asset7)) Demo.asset7).
  - vm_compute. discriminate.
  - vm_compute. reflexivity.
  - reflexivity.
  - reflexivity.
  - reflexivity.
  - vm_compute. reflexivity.
  - reflexivity.
  - vm_compute. reflexivity.
Defined.

(** C1. On 1996 milli-satoshi at 100 per unit the quotient is 19.96, which
    rounded to the nearest tenth is 20.0; [ProduceHtlcExtraData] writes 19
    units, the plain truncating quotient.  On the specification's own
    example, 12345 at 1000, both give 12. *)
Theorem numAssetUnits_truncates_1996_at_100 :
  ProduceHtlcExtraData (codec := Demo.codec)
    (Demo.shaper (Demo.quotes_of 100)) 1996
    (Demo.records_of [Byte.x00; Byte.x07])
    = Returns (NewMSatFromSatoshis DefaultOnChainHtlcAmount,
               Some (Bytes (TlvCodec := Demo.codec)
                       (set_Balances [NewAssetBalance Demo.asset7 19]
                          (MkHtlc [] (Some [Byte.x07])))),
               None)
  /\ numAssetUnits 1996 100 = 19
  /\ 1996 / 100 = 19
  /\ numUnits_spec 1996 100 = 20
  /\ numAssetUnits 12345 1000 = 12
  /\ numUnits_spec 12345 1000 = 12.
Proof.
  repeat split; vm_compute; reflexivity.
Qed.

(** Beyond 2^64 / 10 milli-satoshi the product [totalAmount * 10] leaves
    the 64-bit range and the unit count is not even the truncating
    quotient. *)
Lemma numAssetUnits_wraps_on_large_amounts :
  numAssetUnits 2000000000000000000 1000 = 155325592629044
  /\ 2000000000000000000 / 1000 = 2000000000000000.
Proof. split; vm_compute; reflexivity. Qed.

(** * Further properties *)

(** ** The unit count, for every amount and price *)

(** X1. The units written never cost more than the amount that came in, at the
    quoted price; this holds for every input, wrapped product included. *)
Theorem numAssetUnits_never_overpays (totalAmount mSatPerAssetUnit : N) :
  numAssetUnits totalAmount mSatPerAssetUnit * mSatPerAssetUnit <= totalAmount.
Proof.
  assert (Hcost := numAssetUnits_cost_le_product totalAmount mSatPerAssetUnit).
  assert (Hwrap := U64Facts.mul_le totalAmount 10).
  lia.
Qed.

(** X2. While [totalAmount * 10] fits 64 bits, what is left unconverted is
    worth less than one unit. *)
Theorem numAssetUnits_remainder_below_one_unit
    (totalAmount mSatPerAssetUnit : N) :
  totalAmount * 10 < U64.modulus ->
  mSatPerAssetUnit <> 0 ->
  totalAmount
    < (numAssetUnits totalAmount mSatPerAssetUnit + 1) * mSatPerAssetUnit.
Proof.
  intros Hrange Hb.
  rewrite numAssetUnits_plain_division by assumption.
  rewrite N.add_1_r, N.mul_comm.
  now apply N.mul_succ_div_gt.
Qed.

(** X3. The unit count is at most a tenth of the largest [uint64], so the
    conversion [uint64(...)] and the amount field lose nothing. *)
Theorem numAssetUnits_fits_uint64 (totalAmount mSatPerAssetUnit : N) :
  numAssetUnits totalAmount mSatPerAssetUnit <= U64.max / 10
  /\ numAssetUnits totalAmount mSatPerAssetUnit < U64.modulus.
Proof.
  assert (Hle : numAssetUnits totalAmount mSatPerAssetUnit <= U64.max / 10).
  { etransitivity; [apply numAssetUnits_le_product_tenth |].
    apply N.Div0.div_le_mono.
    assert (Hw := U64Facts.wrap64_lt (totalAmount * 10)).
    unfold U64.mul, U64.max. lia. }
  split; [exact Hle |].
  eapply N.le_lt_trans; [exact Hle | reflexivity].
Qed.

(** X4. More milli-satoshi never buy fewer units, as long as the product fits
    64 bits; and a higher price never buys more units. *)
Theorem numAssetUnits_monotone (mSatPerAssetUnit : N) :
  (forall t1 t2,
     t1 <= t2 ->
     t2 * 10 < U64.modulus ->
     numAssetUnits t1 mSatPerAssetUnit <= numAssetUnits t2 mSatPerAssetUnit)
  /\ (forall totalAmount higher,
        mSatPerAssetUnit <> 0 ->
        mSatPerAssetUnit <= higher ->
        numAssetUnits totalAmount higher
          <= numAssetUnits totalAmount mSatPerAssetUnit).
Proof.
  split.
  - intros t1 t2 Hle Hrange. unfold numAssetUnits.
    rewrite !U64Facts.mul_exact by lia.
    apply N.Div0.div_le_mono. apply N.Div0.div_le_mono. lia.
  - intros totalAmount higher Hb Hle. unfold numAssetUnits.
    apply N.Div0.div_le_mono.
    apply N.div_le_compat_l. lia.
Qed.

(** ** [PaymentBandwidth]: errors and range *)

Section BandwidthFacts.

Context {codec : TlvCodec}.

Implicit Types (s : AuxTrafficShaper) (c : Commitment) (h : Htlc).
Implicit Types (htlcBlob commitmentBlob : option Blob).

(** X5. An error never comes with bandwidth: the value beside it is 0, and the
    error is one of four kinds: blob missing, commitment or HTLC not
    decodable, no accepted quote for the HTLC's quote identifier. *)
Theorem PaymentBandwidth_error_means_zero s htlcBlob commitmentBlob v err :
  PaymentBandwidth s htlcBlob commitmentBlob = (v, Some err) ->
  v = 0
  /\ (err = ErrNoBlobAvailable
      \/ (exists cause, err = ErrDecodingCommitment cause)
      \/ (exists cause, err = ErrDecodingHtlc cause)
      \/ (exists rfqID, err = ErrNoAcceptedQuote rfqID (Scid rfqID))).
Proof.
  unfold PaymentBandwidth. intros Hres.
  repeat case_match; simplify_eq; split; eauto 7.
Qed.

(** X6. The missing-blob error is returned exactly when one of the two blobs is
    absent; what the other blob holds is then not looked at. *)
Theorem PaymentBandwidth_missing_blob s htlcBlob commitmentBlob :
  PaymentBandwidth s htlcBlob commitmentBlob = (0, Some ErrNoBlobAvailable)
  <-> htlcBlob = None \/ commitmentBlob = None.
Proof.
  split.
  - unfold PaymentBandwidth. intros Hres.
    repeat case_match; simplify_eq; auto.
  - intros [-> | ->]; unfold PaymentBandwidth; [| reflexivity].
    now destruct commitmentBlob.
Qed.

(** X7. Decoding failures are reported wrapped, the commitment's first: a
    commitment that does not decode hides whatever the HTLC blob holds, and
    an HTLC decoding error means that the commitment did decode. *)
Theorem PaymentBandwidth_decode_errors s htlcBlob commitmentBlob cause :
  (PaymentBandwidth s htlcBlob commitmentBlob
     = (0, Some (ErrDecodingCommitment cause))
   <-> exists htlcBytes commitmentBytes,
         htlcBlob = Some htlcBytes /\ commitmentBlob = Some commitmentBytes
         /\ DecodeCommitment commitmentBytes = Fail cause)
  /\ (PaymentBandwidth s htlcBlob commitmentBlob
        = (0, Some (ErrDecodingHtlc cause))
      <-> exists htlcBytes commitmentBytes c,
            htlcBlob = Some htlcBytes /\ commitmentBlob = Some commitmentBytes
            /\ DecodeCommitment commitmentBytes = Ok c
            /\ DecodeHtlc htlcBytes = Fail cause).
Proof.
  split; split.
  - unfold PaymentBandwidth. intros Hres.
    repeat case_match; simplify_eq; eauto.
  - intros (htlcBytes & commitmentBytes & -> & -> & Hc).
    unfold PaymentBandwidth. now rewrite Hc.
  - unfold PaymentBandwidth. intros Hres.
    repeat case_match; simplify_eq; eauto 7.
  - intros (htlcBytes & commitmentBytes & c & -> & -> & Hc & Hh).
    unfold PaymentBandwidth. now rewrite Hc, Hh.
Qed.

(** X8. Whatever the inputs, the value returned is a [uint64]; without an error
    it is 0, the sentinel, or the 64-bit product of the local balance and
    the price of a quote in the table. *)
Theorem PaymentBandwidth_value_range s htlcBlob commitmentBlob :
  fst (PaymentBandwidth s htlcBlob commitmentBlob) < U64.modulus
  /\ (forall v,
        PaymentBandwidth s htlcBlob commitmentBlob = (v, None) ->
        v = 0
        \/ v = NewMSatFromSatoshis MaxSatoshi
        \/ exists commitmentBytes c scid q,
             commitmentBlob = Some commitmentBytes
             /\ DecodeCommitment commitmentBytes = Ok c
             /\ PeerAcceptedSellQuotes (RfqManager (cfg s)) !! scid = Some q
             /\ v = U64.mul (OutputSum (LocalOutputs c)) (BidPrice q)).
Proof.
  split.
  - unfold PaymentBandwidth.
    repeat case_match; simpl;
      first [ reflexivity | apply U64Facts.wrap64_lt ].
  - unfold PaymentBandwidth. intros v Hres.
    repeat case_match; simplify_eq; eauto 12.
Qed.

End BandwidthFacts.

(** ** [ProduceHtlcExtraData]: errors, panic, blob *)

(** The paths through [ProduceHtlcExtraData], one goal each, with the test
    that leads there kept as a hypothesis. *)
Ltac produce_paths s records :=
  unfold ProduceHtlcExtraData;
  destruct (Nat.eqb (size records) 0) eqn:Hsz;
  [| destruct (Serialize records) as [htlcBlob | cause'] eqn:Hser;
     [ destruct (DecodeHtlc htlcBlob) as [h | cause'] eqn:Hdec;
       [ destruct (N.ltb_spec 0 (Sum (Balances h))) as [Hsum | Hsum];
         [| destruct (RfqID h) as [rfqID |] eqn:Hid;
            [ simpl;
              destruct (PeerAcceptedSellQuotes (RfqManager (cfg s))
                          !! Scid rfqID) as [q |] eqn:Hq;
              [ simpl;
                destruct (N.eqb_spec (BidPrice q) 0) as [Hz | Hz];
                [| destruct (AssetID_opt q) as [assetID |] eqn:Hasset ]
              |]
            |] ]
       |]
     |] ].

Section RewriterFacts.

Context {codec : TlvCodec}.

Implicit Types (s : AuxTrafficShaper) (c : Commitment) (h : Htlc).
Implicit Types (records : gmap N Blob) (q : SellAccept).

(** X9. An error comes with amount 0 and no blob, and is one of five kinds:
    records not serialisable, blob not decodable, no quote identifier, no
    accepted quote, quote without asset identifier. *)
Theorem ProduceHtlcExtraData_error_means_nothing s totalAmount records amount
    blob err :
  ProduceHtlcExtraData s totalAmount records = Returns (amount, blob, Some err) ->
  amount = 0 /\ blob = None
  /\ ((exists cause, err = ErrSerializingHtlc cause)
      \/ (exists cause, err = ErrDecodingHtlc cause)
      \/ err = ErrNoRfqID
      \/ (exists rfqID, err = ErrNoAcceptedQuote rfqID (Scid rfqID))
      \/ err = ErrQuoteNoAssetID).
Proof.
  unfold ProduceHtlcExtraData. intros Hres.
  repeat case_match; simplify_eq; repeat split; eauto 8.
Qed.

(** X10. The call panics, on a division by zero, exactly when the records
    decode to an HTLC without amount whose quote is found and has a bid
    price of 0, whether or not that quote names an asset. *)
Theorem ProduceHtlcExtraData_panics_iff s totalAmount records :
  ProduceHtlcExtraData s totalAmount records = Panics
  <-> exists htlcBlob h rfqID q,
        records <> ∅
        /\ Serialize records = Ok htlcBlob
        /\ DecodeHtlc htlcBlob = Ok h
        /\ Sum (Balances h) = 0
        /\ RfqID h = Some rfqID
        /\ PeerAcceptedSellQuotes (RfqManager (cfg s)) !! Scid rfqID = Some q
        /\ BidPrice q = 0.
Proof.
  split.
  - unfold ProduceHtlcExtraData.
    destruct (Nat.eqb (size records) 0) eqn:Hsz; [discriminate |].
    destruct (Serialize records) as [htlcBlob | cause] eqn:Hser;
      [| discriminate].
    destruct (DecodeHtlc htlcBlob) as [h | cause] eqn:Hdec; [| discriminate].
    destruct (N.ltb_spec 0 (Sum (Balances h))) as [| Hsum]; [discriminate |].
    destruct (RfqID h) as [rfqID |] eqn:Hid; [| discriminate].
    simpl.
    destruct (PeerAcceptedSellQuotes (RfqManager (cfg s)) !! Scid rfqID)
      as [q |] eqn:Hq; [| discriminate].
    simpl.
    destruct (N.eqb_spec (BidPrice q) 0) as [Hz |];
      [| destruct (AssetID_opt q); discriminate].
    intros _. exists htlcBlob, h, rfqID, q.
    repeat split; try assumption; try lia.
    intros ->. discriminate Hsz.
  - intros (htlcBlob & h & rfqID & q & Hne & Hser & Hdec & Hsum & Hid & Hq & Hz).
    unfold ProduceHtlcExtraData.
    rewrite (len_nonzero _ Hne), Hser, Hdec, Hsum, Hid. simpl.
    rewrite Hq. simpl. now rewrite Hz.
Qed.

(** X11. A successful call returns no blob exactly when there were no custom
    records; the amount is then the one passed in. *)
Theorem ProduceHtlcExtraData_nil_blob_iff s totalAmount records amount :
  ProduceHtlcExtraData s totalAmount records = Returns (amount, None, None)
  <-> records = ∅ /\ amount = totalAmount.
Proof.
  split.
  - produce_paths s records; intros Hres; simplify_eq.
    split; [now apply len_zero | reflexivity].
  - intros [-> ->]. reflexivity.
Qed.

(** X12. Failures of the TLV layer are passed on wrapped: the serialisation error
    exactly when the non-empty records do not serialise, the decoding error
    exactly when they serialise to a blob that does not decode. *)
Theorem ProduceHtlcExtraData_codec_errors s totalAmount records cause :
  (ProduceHtlcExtraData s totalAmount records
     = Returns (0, None, Some (ErrSerializingHtlc cause))
   <-> records <> ∅ /\ Serialize records = Fail cause)
  /\ (ProduceHtlcExtraData s totalAmount records
        = Returns (0, None, Some (ErrDecodingHtlc cause))
      <-> records <> ∅
          /\ exists htlcBlob,
               Serialize records = Ok htlcBlob
               /\ DecodeHtlc htlcBlob = Fail cause).
Proof.
  split; split.
  - produce_paths s records; intros Hres; simplify_eq.
    split; [| reflexivity]. intros ->. discriminate Hsz.
  - intros [Hne Hser]. unfold ProduceHtlcExtraData.
    now rewrite (len_nonzero _ Hne), Hser.
  - produce_paths s records; intros Hres; simplify_eq.
    split; [| eauto]. intros ->. discriminate Hsz.
  - intros (Hne & htlcBlob & Hser & Hdec). unfold ProduceHtlcExtraData.
    now rewrite (len_nonzero _ Hne), Hser, Hdec.
Qed.

(** X13. A quote that names no asset, at a non-zero price, is an error of its
    own, and the only way to that error. *)
Theorem ProduceHtlcExtraData_quote_without_asset s totalAmount records :
  ProduceHtlcExtraData s totalAmount records
    = Returns (0, None, Some ErrQuoteNoAssetID)
  <-> exists htlcBlob h rfqID q,
        records <> ∅
        /\ Serialize records = Ok htlcBlob
        /\ DecodeHtlc htlcBlob = Ok h
        /\ Sum (Balances h) = 0
        /\ RfqID h = Some rfqID
        /\ PeerAcceptedSellQuotes (RfqManager (cfg s)) !! Scid rfqID = Some q
        /\ BidPrice q <> 0
        /\ AssetID_opt q = None.
Proof.
  split.
  - produce_paths s records; intros Hres; simplify_eq.
    exists htlcBlob, h, rfqID, q.
    repeat split; try assumption; try lia.
    intros ->. discriminate Hsz.
  - intros (htlcBlob & h & rfqID & q
            & Hne & Hser & Hdec & Hsum & Hid & Hq & Hbid & Hasset).
    unfold ProduceHtlcExtraData.
    rewrite (len_nonzero _ Hne), Hser, Hdec, Hsum, Hid. simpl.
    rewrite Hq. simpl.
    destruct (N.eqb_spec (BidPrice q) 0); [contradiction |].
    now rewrite Hasset.
Qed.

(** X14. An HTLC without amount and without quote identifier: the rewriter
    refuses it with an error, while the bandwidth estimate for the very same
    blob is 0 without error. *)
Theorem no_rfq_id_error_versus_zero_bandwidth s totalAmount records htlcBlob h
    commitmentBytes c :
  records <> ∅ ->
  Serialize records = Ok htlcBlob ->
  DecodeHtlc htlcBlob = Ok h ->
  Sum (Balances h) = 0 ->
  RfqID h = None ->
  DecodeCommitment commitmentBytes = Ok c ->
  ProduceHtlcExtraData s totalAmount records
    = Returns (0, None, Some ErrNoRfqID)
  /\ PaymentBandwidth s (Some htlcBlob) (Some commitmentBytes) = (0, None).
Proof.
  intros Hne Hser Hdec Hsum Hid Hc. split.
  - unfold ProduceHtlcExtraData.
    now rewrite (len_nonzero _ Hne), Hser, Hdec, Hsum, Hid.
  - unfold PaymentBandwidth. rewrite Hc, Hdec, Hsum, Hid. reflexivity.
Qed.

(** X15. The two entry points look a quote up under the same key: for an HTLC
    without amount that carries a quote identifier, the bandwidth estimate
    reports a missing quote exactly when the rewriter does. *)
Theorem quote_lookup_agrees s totalAmount records htlcBlob h rfqID
    commitmentBytes c :
  records <> ∅ ->
  Serialize records = Ok htlcBlob ->
  DecodeHtlc htlcBlob = Ok h ->
  Sum (Balances h) = 0 ->
  RfqID h = Some rfqID ->
  DecodeCommitment commitmentBytes = Ok c ->
  (PaymentBandwidth s (Some htlcBlob) (Some commitmentBytes)
     = (0, Some (ErrNoAcceptedQuote rfqID (Scid rfqID)))
   <-> ProduceHtlcExtraData s totalAmount records
         = Returns (0, None, Some (ErrNoAcceptedQuote rfqID (Scid rfqID)))).
Proof.
  intros Hne Hser Hdec Hsum Hid Hc.
  unfold PaymentBandwidth, ProduceHtlcExtraData.
  rewrite (len_nonzero _ Hne), Hser, Hc, Hdec, Hsum, Hid. simpl.
  destruct (PeerAcceptedSellQuotes (RfqManager (cfg s)) !! Scid rfqID)
    as [q |]; simpl.
  - split; [discriminate |].
    destruct (BidPrice q =? 0); [discriminate |].
    destruct (AssetID_opt q); discriminate.
  - split; reflexivity.
Qed.

(** X16. What the rewrite writes: the HTLC keeps its quote identifier, its
    balances become the single entry for the quote's asset, and the amount
    of that entry, which is also the HTLC's new sum, costs no more than the
    amount that came in. *)
Theorem ProduceHtlcExtraData_rewritten_htlc s totalAmount records htlcBlob h
    rfqID q assetID :
  records <> ∅ ->
  Serialize records = Ok htlcBlob ->
  DecodeHtlc htlcBlob = Ok h ->
  Sum (Balances h) = 0 ->
  RfqID h = Some rfqID ->
  PeerAcceptedSellQuotes (RfqManager (cfg s)) !! Scid rfqID = Some q ->
  BidPrice q <> 0 ->
  AssetID_opt q = Some assetID ->
  exists h' units,
    ProduceHtlcExtraData s totalAmount records
      = Returns (NewMSatFromSatoshis DefaultOnChainHtlcAmount,
                 Some (Bytes h'), None)
    /\ RfqID h' = Some rfqID
    /\ Balances h' = [NewAssetBalance assetID units]
    /\ Sum (Balances h') = units
    /\ units * BidPrice q <= totalAmount.
Proof.
  intros Hne Hser Hdec Hsum Hid Hq Hbid Hasset.
  exists (set_Balances
            [NewAssetBalance assetID (numAssetUnits totalAmount (BidPrice q))]
            h),
         (numAssetUnits totalAmount (BidPrice q)).
  split; [eapply ProduceHtlcExtraData_rewrite; eassumption |].
  split; [exact Hid |].
  split; [reflexivity |].
  split.
  - simpl. unfold Sum. simpl.
    apply U64Facts.wrap64_small.
    assert (Hle := numAssetUnits_le_product_tenth totalAmount (BidPrice q)).
    assert (Hw := U64Facts.wrap64_lt (totalAmount * 10)).
    fold (U64.mul totalAmount 10) in Hw.
    assert (Hdiv : U64.mul totalAmount 10 / 10 <= U64.mul totalAmount 10)
      by (apply N.Div0.div_le_upper_bound; lia).
    lia.
  - assert (Hcost := numAssetUnits_cost_le_product totalAmount (BidPrice q)).
    assert (Hwrap := U64Facts.mul_le totalAmount 10).
    lia.
Qed.

(** X17. The rewritten blob handed to [PaymentBandwidth], with a decoder that
    reads back the sum and the quote identifier that were written: never an
    error.  The result is the sentinel when the units written are positive
    and within the local balance, and the balance at the quote's price
    otherwise. *)
Theorem PaymentBandwidth_of_rewritten_htlc s totalAmount records htlcBlob h
    rfqID q assetID h2 commitmentBytes c :
  let units := numAssetUnits totalAmount (BidPrice q) in
  records <> ∅ ->
  Serialize records = Ok htlcBlob ->
  DecodeHtlc htlcBlob = Ok h ->
  Sum (Balances h) = 0 ->
  RfqID h = Some rfqID ->
  PeerAcceptedSellQuotes (RfqManager (cfg s)) !! Scid rfqID = Some q ->
  BidPrice q <> 0 ->
  AssetID_opt q = Some assetID ->
  DecodeHtlc (Bytes (set_Balances [NewAssetBalance assetID units] h)) = Ok h2 ->
  Sum (Balances h2) = units ->
  RfqID h2 = Some rfqID ->
  DecodeCommitment commitmentBytes = Ok c ->
  exists newBlob,
    ProduceHtlcExtraData s totalAmount records
      = Returns (NewMSatFromSatoshis DefaultOnChainHtlcAmount,
                 Some newBlob, None)
    /\ snd (PaymentBandwidth s (Some newBlob) (Some commitmentBytes)) = None
    /\ (units <> 0 ->
        units <= OutputSum (LocalOutputs c) ->
        PaymentBandwidth s (Some newBlob) (Some commitmentBytes)
          = (NewMSatFromSatoshis MaxSatoshi, None))
    /\ (units = 0 \/ OutputSum (LocalOutputs c) < units ->
        PaymentBandwidth s (Some newBlob) (Some commitmentBytes)
          = (U64.mul (OutputSum (LocalOutputs c)) (BidPrice q), None)).
Proof.
  intros units Hne Hser Hdec Hsum Hid Hq Hbid Hasset Hdec2 Hsum2 Hid2 Hc.
  eexists. split.
  { eapply ProduceHtlcExtraData_rewrite; eassumption. }
  fold units.
  unfold PaymentBandwidth. rewrite Hc, Hdec2, Hsum2, Hid2. simpl.
  rewrite Hq.
  repeat split.
  - branch_tests; reflexivity.
  - intros Hnz Hle. branch_tests; try reflexivity; lia.
  - intros Hnot. branch_tests; try reflexivity; lia.
Qed.

(** X18. A second pass over the rewritten blob, again with a decoder that reads
    back the sum and the quote identifier: when units were written, records
    that serialise to that blob pass through untouched with the caller's
    amount; when zero units were written, the HTLC is priced anew. *)
Theorem ProduceHtlcExtraData_second_pass s totalAmount records htlcBlob h
    rfqID q assetID h2 :
  let units := numAssetUnits totalAmount (BidPrice q) in
  records <> ∅ ->
  Serialize records = Ok htlcBlob ->
  DecodeHtlc htlcBlob = Ok h ->
  Sum (Balances h) = 0 ->
  RfqID h = Some rfqID ->
  PeerAcceptedSellQuotes (RfqManager (cfg s)) !! Scid rfqID = Some q ->
  BidPrice q <> 0 ->
  AssetID_opt q = Some assetID ->
  DecodeHtlc (Bytes (set_Balances [NewAssetBalance assetID units] h)) = Ok h2 ->
  Sum (Balances h2) = units ->
  RfqID h2 = Some rfqID ->
  exists newBlob,
    ProduceHtlcExtraData s totalAmount records
      = Returns (NewMSatFromSatoshis DefaultOnChainHtlcAmount,
                 Some newBlob, None)
    /\ forall records2 totalAmount2,
         records2 <> ∅ ->
         Serialize records2 = Ok newBlob ->
         (units <> 0 ->
          ProduceHtlcExtraData s totalAmount2 records2
            = Returns (totalAmount2, Some newBlob, None))
         /\ (units = 0 ->
             ProduceHtlcExtraData s totalAmount2 records2
               = Returns (NewMSatFromSatoshis DefaultOnChainHtlcAmount,
                          Some (Bytes (set_Balances
                            [NewAssetBalance assetID
                               (numAssetUnits totalAmount2 (BidPrice q))] h2)),
                          None)).
Proof.
  intros units Hne Hser Hdec Hsum Hid Hq Hbid Hasset Hdec2 Hsum2 Hid2.
  eexists. split.
  { eapply ProduceHtlcExtraData_rewrite; eassumption. }
  fold units.
  intros records2 totalAmount2 Hne2 Hser2. split.
  - intros Hnz. apply ProduceHtlcExtraData_already_priced_path with h2;
      try assumption. now rewrite Hsum2.
  - intros Hz. eapply ProduceHtlcExtraData_rewrite; try eassumption.
    now rewrite Hsum2.
Qed.

End RewriterFacts.

(** ** [Start] and [Stop] *)

Lemma In_app_singleton (x y : logline) (l : list logline) :
  In x (l ++ [y]) <-> In x l \/ x = y.
Proof.
  rewrite in_app_iff. simpl. intuition congruence.
Qed.

Lemma NoDup_app_singleton (x : logline) (l : list logline) :
  NoDup l -> ~ In x l -> NoDup (l ++ [x]).
Proof.
  intros Hnd Hnot. apply NoDup_ListNoDup.
  apply NoDup_ListNoDup in Hnd.
  induction Hnd as [| y l Hy Hnd IH]; simpl.
  - constructor; [intros [] | constructor].
  - constructor.
    + rewrite in_app_iff. simpl. intros [Hin | [Heq | []]].
      * contradiction.
      * apply Hnot. left. congruence.
    + apply IH. intros Hin. apply Hnot. now right.
Qed.

(** [Start] on a guard in good order: it returns, with no error, keeps the
    guard in good order, marks [startOnce] and changes nothing else but
    the log. *)
Lemma Start_step (g : Lifecycle) :
  guard_inv g ->
  exists g',
    Start g = Returns (g', None)
    /\ guard_inv g'
    /\ startOnce g' = true
    /\ stopOnce g' = stopOnce g.
Proof.
  intros (Hquit & Hstart & Hstop & Hnd).
  unfold Start, Once_Do.
  destruct (startOnce g) eqn:Hdone.
  - exists g. repeat split; try assumption; tauto.
  - eexists. split; [reflexivity |].
    unfold guard_inv. simpl.
    repeat split; try assumption; try tauto.
    + intros _. apply In_app_singleton. now right.
    + rewrite In_app_singleton. intros [Hin | Heq]; [tauto | discriminate].
    + intros Hin. apply In_app_singleton. left. tauto.
    + apply NoDup_app_singleton; [assumption |].
      intros Hin. apply Hstart in Hin. discriminate.
Qed.

(** [Stop] on a guard in good order: the same, and [Quit] is closed. *)
Lemma Stop_step (g : Lifecycle) :
  guard_inv g ->
  exists g',
    Stop g = Returns (g', None)
    /\ guard_inv g'
    /\ stopOnce g' = true
    /\ startOnce g' = startOnce g.
Proof.
  intros (Hquit & Hstart & Hstop & Hnd).
  unfold Stop, Once_Do.
  destruct (stopOnce g) eqn:Hdone.
  - exists g. repeat split; try assumption; try congruence; tauto.
  - unfold close_Quit. simpl. rewrite Hquit.
    eexists. split; [reflexivity |].
    unfold guard_inv. simpl.
    repeat split; try assumption; try tauto.
    + rewrite In_app_singleton. intros [Hin | Heq]; [tauto | discriminate].
    + intros Hin. apply In_app_singleton. left. tauto.
    + intros _. apply In_app_singleton. now right.
    + apply NoDup_app_singleton; [assumption |].
      intros Hin. apply Hstop in Hin. discriminate.
Qed.

Lemma run_from (calls : list call) (g : Lifecycle) :
  guard_inv g ->
  exists g' errs,
    run calls g = Returns (g', errs)
    /\ guard_inv g'
    /\ length errs = length calls
    /\ Forall (fun err => err = None) errs
    /\ (startOnce g' = true <-> startOnce g = true \/ In CallStart calls)
    /\ (stopOnce g' = true <-> stopOnce g = true \/ In CallStop calls).
Proof.
  revert g. induction calls as [| k rest IH]; intros g Hinv.
  - exists g, []. simpl. split_and!; auto; tauto.
  - destruct k; simpl.
    + destruct (Start_step g Hinv) as (g1 & Hrun1 & Hinv1 & Hs1 & Hst1).
      destruct (IH g1 Hinv1)
        as (g' & errs & Hrun & Hinv' & Hlen & Hall & Hs & Hst).
      rewrite Hrun1, Hrun. exists g', (None :: errs).
      split_and!; simpl; auto.
      * rewrite Hs, Hs1. intuition discriminate.
      * rewrite Hst, Hst1. intuition discriminate.
    + destruct (Stop_step g Hinv) as (g1 & Hrun1 & Hinv1 & Hst1 & Hs1).
      destruct (IH g1 Hinv1)
        as (g' & errs & Hrun & Hinv' & Hlen & Hall & Hs & Hst).
      rewrite Hrun1, Hrun. exists g', (None :: errs).
      split_and!; simpl; auto.
      * rewrite Hs, Hs1. intuition discriminate.
      * rewrite Hst, Hst1. intuition discriminate.
Qed.

(** X19. Any sequence of [Start] and [Stop] calls on a new shaper runs to its
    end: no call panics (the [Quit] channel is never closed twice) and each
    returns a [nil] error.  Afterwards [Quit] is closed exactly when [Stop]
    was among the calls, the starting line is in the log exactly when
    [Start] was, the stopping line exactly when [Stop] was, and no line is
    there twice. *)
Theorem Start_Stop_any_order (calls : list call) :
  exists g errs,
    run calls NewLifecycle = Returns (g, errs)
    /\ length errs = length calls
    /\ Forall (fun err => err = None) errs
    /\ (QuitClosed g = true <-> In CallStop calls)
    /\ (In StartingAuxTrafficShaper (logged g) <-> In CallStart calls)
    /\ (In StoppingAuxTrafficShaper (logged g) <-> In CallStop calls)
    /\ NoDup (logged g).
Proof.
  assert (Hnew : guard_inv NewLifecycle).
  { unfold guard_inv, NewLifecycle. simpl.
    split_and!; [reflexivity | | | constructor];
      (split; [intros [] | discriminate]). }
  destruct (run_from calls NewLifecycle Hnew)
    as (g & errs & Hrun
        & (Hquit & Hstart & Hstop & Hnd) & Hlen & Hall & Hs & Hst).
  exists g, errs. simpl in Hs, Hst.
  split_and!; try assumption.
  - rewrite Hquit, Hst. intuition discriminate.
  - rewrite Hstart, Hs. intuition discriminate.
  - rewrite Hstop, Hst. intuition discriminate.
Qed.

(** X20. Calling again changes nothing: after a [Start] (a [Stop]) has returned,
    a further [Start] (a further [Stop]) returns the state as it found it,
    whatever that state is. *)
Theorem Start_Stop_idempotent (g g1 : Lifecycle) (err : option error) :
  (Start g = Returns (g1, err) -> Start g1 = Returns (g1, None))
  /\ (Stop g = Returns (g1, err) -> Stop g1 = Returns (g1, None)).
Proof.
  split.
  - unfold Start, Once_Do.
    destruct (startOnce g) eqn:Hdone; simpl.
    + intros [= <- _]. now rewrite Hdone.
    + intros [= <- _]. reflexivity.
  - unfold Stop, Once_Do.
    destruct (stopOnce g) eqn:Hdone; simpl.
    + intros [= <- _]. now rewrite Hdone.
    + unfold close_Quit. simpl.
      destruct (QuitClosed g); [discriminate |].
      intros [= <- _]. reflexivity.
Qed.

(** ** Further runs on concrete inputs *)

(** 1996 milli-satoshi at 100 per unit: 19 units, 96 left over. *)
Lemma numAssetUnits_remainder_below_one_unit_witness :
  1996 < (numAssetUnits 1996 100 + 1) * 100.
Proof.
  apply (numAssetUnits_remainder_below_one_unit 1996 100).
  - reflexivity.
  - discriminate.
Defined.

Lemma numAssetUnits_monotone_witness :
  numAssetUnits 1996 100 <= numAssetUnits 2000 100
  /\ numAssetUnits 1996 250 <= numAssetUnits 1996 100.
Proof.
  destruct (numAssetUnits_monotone 100) as [Hamount Hprice].
  split.
  - apply (Hamount 1996 2000); [discriminate | reflexivity].
  - apply (Hprice 1996 250); discriminate.
Defined.

(** An HTLC blob that does not decode, next to a commitment that does. *)
Lemma PaymentBandwidth_error_means_zero_witness :
  PaymentBandwidth (codec := Demo.codec) (Demo.shaper ∅)
    (Some []) (Some [Byte.x05])
    = (0, Some (ErrDecodingHtlc (ErrCodec [])))
  /\ 0 = 0
  /\ exists cause, ErrDecodingHtlc (ErrCodec []) = ErrDecodingHtlc cause.
Proof.
  split; [reflexivity |].
  destruct (PaymentBandwidth_error_means_zero (codec := Demo.codec)
              (Demo.shaper ∅) (Some []) (Some [Byte.x05])
              0 (ErrDecodingHtlc (ErrCodec [])) eq_refl)
    as [Hzero Hkind].
  split; [exact Hzero |].
  destruct Hkind as [Hk | [[cause Hk] | [Hk | [rfqID Hk]]]];
    try discriminate Hk.
  exact Hk.
Defined.

(** A commitment that does not decode hides an HTLC blob that does not
    decode either. *)
Lemma PaymentBandwidth_decode_errors_witness :
  PaymentBandwidth (codec := Demo.codec) (Demo.shaper ∅) (Some []) (Some [])
    = (0, Some (ErrDecodingCommitment (ErrCodec [])))
  /\ PaymentBandwidth (codec := Demo.codec) (Demo.shaper ∅)
       (Some []) (Some [Byte.x05])
       = (0, Some (ErrDecodingHtlc (ErrCodec []))).
Proof.
  split.
  - apply (proj1 (PaymentBandwidth_decode_errors (codec := Demo.codec)
                    (Demo.shaper ∅) (Some []) (Some []) (ErrCodec []))).
    exists [], []. repeat split.
  - apply (proj2 (PaymentBandwidth_decode_errors (codec := Demo.codec)
                    (Demo.shaper ∅) (Some []) (Some [Byte.x05]) (ErrCodec []))).
    exists [], [Byte.x05], (MkCommitment [MkAssetOutput 5]). repeat split.
Defined.

(** Records that serialise to a blob without quote identifier. *)
Lemma ProduceHtlcExtraData_error_means_nothing_witness :
  ProduceHtlcExtraData (codec := Demo.codec) (Demo.shaper ∅) 12345
    (Demo.records_of [Byte.x00])
    = Returns (0, None, Some ErrNoRfqID)
  /\ 0 = 0 /\ @None Blob = None.
Proof.
  assert (Hrun : ProduceHtlcExtraData (codec := Demo.codec) (Demo.shaper ∅)
                   12345 (Demo.records_of [Byte.x00])
                 = Returns (0, None, Some ErrNoRfqID))
    by (vm_compute; reflexivity).
  split; [exact Hrun |].
  destruct (ProduceHtlcExtraData_error_means_nothing (codec := Demo.codec)
              (Demo.shaper ∅) 12345 (Demo.records_of [Byte.x00])
              0 None ErrNoRfqID Hrun)
    as (Hzero & Hnil & _).
  split; assumption.
Defined.

(** A quote at price 0 makes the call panic. *)
Lemma ProduceHtlcExtraData_panics_iff_witness :
  ProduceHtlcExtraData (codec := Demo.codec) (Demo.shaper (Demo.quotes_of 0))
    12345 (Demo.records_of [Byte.x00; Byte.x07])
    = Panics.
Proof.
  apply (ProduceHtlcExtraData_panics_iff (codec := Demo.codec)
           (Demo.shaper (Demo.quotes_of 0)) 12345
           (Demo.records_of [Byte.x00; Byte.x07])).
  exists [Byte.x00; Byte.x07], (MkHtlc [] (Some [Byte.x07])), [Byte.x07],
         (MkSellAccept 0 (Some Demo.asset7)).
  split; [vm_compute; discriminate |].
  split; [vm_compute; reflexivity |].
  repeat split; vm_compute; reflexivity.
Defined.

(** Records whose only value is empty serialise to a blob that does not
    decode. *)
Lemma ProduceHtlcExtraData_codec_errors_witness :
  ProduceHtlcExtraData (codec := Demo.codec) (Demo.shaper ∅) 12345
    (Demo.records_of [])
    = Returns (0, None, Some (ErrDecodingHtlc (ErrCodec []))).
Proof.
  apply (proj2 (ProduceHtlcExtraData_codec_errors (codec := Demo.codec)
                  (Demo.shaper ∅) 12345 (Demo.records_of []) (ErrCodec []))).
  split; [vm_compute; discriminate |].
  exists []. split; [vm_compute; reflexivity | reflexivity].
Defined.

(** A quote under SCID 7 that names no asset. *)
Lemma ProduceHtlcExtraData_quote_without_asset_witness :
  ProduceHtlcExtraData (codec := Demo.codec)
    (Demo.shaper {[ 7 := MkSellAccept 1000 None ]}) 12345
    (Demo.records_of [Byte.x00; Byte.x07])
    = Returns (0, None, Some ErrQuoteNoAssetID).
Proof.
  apply (ProduceHtlcExtraData_quote_without_asset (codec := Demo.codec)
           (Demo.shaper {[ 7 := MkSellAccept 1000 None ]}) 12345
           (Demo.records_of [Byte.x00; Byte.x07])).
  exists [Byte.x00; Byte.x07], (MkHtlc [] (Some [Byte.x07])), [Byte.x07],
         (MkSellAccept 1000 None).
  split; [vm_compute; discriminate |].
  split; [vm_compute; reflexivity |].
  split; [reflexivity |].
  split; [reflexivity |].
  split; [reflexivity |].
  split; [vm_compute; reflexivity |].
  split; [vm_compute; discriminate | reflexivity].
Defined.

Lemma no_rfq_id_error_versus_zero_bandwidth_witness :
  ProduceHtlcExtraData (codec := Demo.codec) (Demo.shaper (Demo.quotes_of 2))
    12345 (Demo.records_of [Byte.x00])
    = Returns (0, None, Some ErrNoRfqID)
  /\ PaymentBandwidth (codec := Demo.codec) (Demo.shaper (Demo.quotes_of 2))
       (Some [Byte.x00]) (Some [Byte.x05])
       = (0, None).
Proof.
  apply (no_rfq_id_error_versus_zero_bandwidth (codec := Demo.codec)
           (Demo.shaper (Demo.quotes_of 2)) 12345 (Demo.records_of [Byte.x00])
           [Byte.x00] (MkHtlc [] None) [Byte.x05]
           (MkCommitment [MkAssetOutput 5])).
  - vm_compute. discriminate.
  - vm_compute. reflexivity.
  - reflexivity.
  - reflexivity.
  - reflexivity.
  - reflexivity.
Defined.

Lemma quote_lookup_agrees_witness :
  PaymentBandwidth (codec := Demo.codec) (Demo.shaper (Demo.quotes_of 2))
    (Some [Byte.x00; Byte.x09]) (Some [Byte.x05])
    = (0, Some (ErrNoAcceptedQuote [Byte.x09]
                  (Scid (TlvCodec := Demo.codec) [Byte.x09])))
  <-> ProduceHtlcExtraData (codec := Demo.codec)
        (Demo.shaper (Demo.quotes_of 2)) 12345
        (Demo.records_of [Byte.x00; Byte.x09])
        = Returns (0, None,
                   Some (ErrNoAcceptedQuote [Byte.x09]
                           (Scid (TlvCodec := Demo.codec) [Byte.x09]))).
Proof.
  apply (quote_lookup_agrees (codec := Demo.codec)
           (Demo.shaper (Demo.quotes_of 2)) 12345
           (Demo.records_of [Byte.x00; Byte.x09])
           [Byte.x00; Byte.x09] (MkHtlc [] (Some [Byte.x09])) [Byte.x09]
           [Byte.x05] (MkCommitment [MkAssetOutput 5])).
  - vm_compute. discriminate.
  - vm_compute. reflexivity.
  - reflexivity.
  - reflexivity.
  - reflexivity.
  - reflexivity.
Defined.

(** 12345 milli-satoshi at 1000 per unit: the HTLC comes back with its
    quote identifier and a single balance of 12 units. *)
Lemma ProduceHtlcExtraData_rewritten_htlc_witness :
  exists h' units,
    ProduceHtlcExtraData (codec := Demo.codec)
      (Demo.shaper (Demo.quotes_of 1000)) 12345
      (Demo.records_of [Byte.x00; Byte.x07])
      = Returns (NewMSatFromSatoshis DefaultOnChainHtlcAmount,
                 Some (Bytes (TlvCodec := Demo.codec) h'), None)
    /\ RfqID h' = Some [Byte.x07]
    /\ Balances h' = [NewAssetBalance Demo.asset7 units]
    /\ Sum (Balances h') = units
    /\ units * 1000 <= 12345.
Proof.
  apply (ProduceHtlcExtraData_rewritten_htlc (codec := Demo.codec)
           (Demo.shaper (Demo.quotes_of 1000)) 12345
           (Demo.records_of [Byte.x00; Byte.x07])
           [Byte.x00; Byte.x07] (MkHtlc [] (Some [Byte.x07])) [Byte.x07]
           (MkSellAccept 1000 (Some Demo.asset7)) Demo.asset7).
  - vm_compute. discriminate.
  - vm_compute. reflexivity.
  - reflexivity.
  - reflexivity.
  - reflexivity.
  - vm_compute. reflexivity.
  - vm_compute. discriminate.
  - reflexivity.
Defined.

(** The 12 units written exceed a local balance of 5: the estimate for the
    rewritten blob is 5 units at 1000, without error. *)
Lemma PaymentBandwidth_of_rewritten_htlc_witness :
  exists newBlob,
    ProduceHtlcExtraData (codec := Demo.codec)
      (Demo.shaper (Demo.quotes_of 1000)) 12345
      (Demo.records_of [Byte.x00; Byte.x07])
      = Returns (NewMSatFromSatoshis DefaultOnChainHtlcAmount,
                 Some newBlob, None)
    /\ PaymentBandwidth (codec := Demo.codec)
         (Demo.shaper (Demo.quotes_of 1000)) (Some newBlob) (Some [Byte.x05])
         = (5000, None).
Proof.
  destruct (PaymentBandwidth_of_rewritten_htlc (codec := Demo.codec)
              (Demo.shaper (Demo.quotes_of 1000)) 12345
              (Demo.records_of [Byte.x00; Byte.x07])
              [Byte.x00; Byte.x07] (MkHtlc [] (Some [Byte.x07])) [Byte.x07]
              (MkSellAccept 1000 (Some Demo.asset7)) Demo.asset7
              (MkHtlc [NewAssetBalance [] 12] (Some [Byte.x07]))
              [Byte.x05] (MkCommitment [MkAssetOutput 5]))
    as (newBlob & Hproduce & _ & _ & Hquote).
  - vm_compute. discriminate.
  - vm_compute. reflexivity.
  - reflexivity.
  - reflexivity.
  - reflexivity.
  - vm_compute. reflexivity.
  - vm_compute. discriminate.
  - reflexivity.
  - vm_compute. reflexivity.
  - vm_compute. reflexivity.
  - reflexivity.
  - reflexivity.
  - exists newBlob. split; [exact Hproduce |].
    apply Hquote. right. vm_compute. reflexivity.
Defined.

(** The rewritten blob, carried as custom records again with another
    amount: passed through as it is. *)
Lemma ProduceHtlcExtraData_second_pass_witness :
  exists newBlob,
    ProduceHtlcExtraData (codec := Demo.codec)
      (Demo.shaper (Demo.quotes_of 1000)) 12345
      (Demo.records_of [Byte.x00; Byte.x07])
      = Returns (NewMSatFromSatoshis DefaultOnChainHtlcAmount,
                 Some newBlob, None)
    /\ ProduceHtlcExtraData (codec := Demo.codec)
         (Demo.shaper (Demo.quotes_of 1000)) 777
         (Demo.records_of [Byte.x0c; Byte.x07])
         = Returns (777, Some newBlob, None).
Proof.
  destruct (ProduceHtlcExtraData_second_pass (codec := Demo.codec)
              (Demo.shaper (Demo.quotes_of 1000)) 12345
              (Demo.records_of [Byte.x00; Byte.x07])
              [Byte.x00; Byte.x07] (MkHtlc [] (Some [Byte.x07])) [Byte.x07]
              (MkSellAccept 1000 (Some Demo.asset7)) Demo.asset7
              (MkHtlc [NewAssetBalance [] 12] (Some [Byte.x07])))
    as (newBlob & Hproduce & Hsecond).
  - vm_compute. discriminate.
  - vm_compute. reflexivity.
  - reflexivity.
  - reflexivity.
  - reflexivity.
  - vm_compute. reflexivity.
  - vm_compute. discriminate.
  - reflexivity.
  - vm_compute. reflexivity.
  - vm_compute. reflexivity.
  - reflexivity.
  - exists newBlob. split; [exact Hproduce |].
    apply (Hsecond (Demo.records_of [Byte.x0c; Byte.x07]) 777).
    + vm_compute. discriminate.
    + assert (Hblob : newBlob = [Byte.x0c; Byte.x07]).
      { assert (Hrun : ProduceHtlcExtraData (codec := Demo.codec)
                         (Demo.shaper (Demo.quotes_of 1000)) 12345
                         (Demo.records_of [Byte.x00; Byte.x07])
                       = Returns (NewMSatFromSatoshis DefaultOnChainHtlcAmount,
                                  Some [Byte.x0c; Byte.x07], None))
          by (vm_compute; reflexivity).
        rewrite Hrun in Hproduce. now injection Hproduce. }
      rewrite Hblob. vm_compute. reflexivity.
    + vm_compute. discriminate.
Defined.

(** A second [Stop] on a stopped guard finds [Quit] closed and leaves it
    alone. *)
Lemma Start_Stop_idempotent_witness :
  Stop (MkLifecycle false true true [StoppingAuxTrafficShaper])
    = Returns (MkLifecycle false true true [StoppingAuxTrafficShaper], None).
Proof.
  apply (proj2 (Start_Stop_idempotent NewLifecycle
                  (MkLifecycle false true true [StoppingAuxTrafficShaper])
                  None)).
  reflexivity.
Defined.

(** ** Estimator and rewriter side by side *)

Section EstimatorAndRewriter.

Context {codec : TlvCodec}.

Implicit Types (s : AuxTrafficShaper) (c : Commitment) (h : Htlc).
Implicit Types (records : gmap N Blob) (q : SellAccept).

(** X21. With no local balance no bandwidth is reported, whatever the HTLC and
    the quotes are: the value is 0, with or without an error. *)
Theorem PaymentBandwidth_no_local_balance s htlcBlob commitmentBytes c :
  DecodeCommitment commitmentBytes = Ok c ->
  OutputSum (LocalOutputs c) = 0 ->
  fst (PaymentBandwidth s htlcBlob (Some commitmentBytes)) = 0.
Proof.
  intros Hc Hzero. unfold PaymentBandwidth.
  destruct htlcBlob as [htlcBytes |]; [| reflexivity].
  rewrite Hc.
  destruct (DecodeHtlc htlcBytes) as [h | cause]; [| reflexivity].
  simpl. rewrite Hzero.
  branch_tests; try lia.
  - destruct (RfqID h) as [rfqID |]; [| reflexivity]. simpl.
    now destruct (_ !! _).
  - destruct (RfqID h) as [rfqID |]; [| reflexivity]. simpl.
    now destruct (_ !! _).
Qed.

(** X22. The estimator reads only the price of a quote.  For an HTLC without
    amount whose quote is found, it reports the balance at that price with
    no error, even where the rewriter cannot go on: at price 0 the rewriter
    panics, and for a quote that names no asset it fails. *)
Theorem estimator_accepts_what_rewriter_refuses s totalAmount records htlcBlob
    h rfqID q commitmentBytes c :
  records <> ∅ ->
  Serialize records = Ok htlcBlob ->
  DecodeHtlc htlcBlob = Ok h ->
  Sum (Balances h) = 0 ->
  RfqID h = Some rfqID ->
  PeerAcceptedSellQuotes (RfqManager (cfg s)) !! Scid rfqID = Some q ->
  DecodeCommitment commitmentBytes = Ok c ->
  PaymentBandwidth s (Some htlcBlob) (Some commitmentBytes)
    = (U64.mul (OutputSum (LocalOutputs c)) (BidPrice q), None)
  /\ (BidPrice q = 0 ->
      ProduceHtlcExtraData s totalAmount records = Panics)
  /\ (BidPrice q <> 0 ->
      AssetID_opt q = None ->
      ProduceHtlcExtraData s totalAmount records
        = Returns (0, None, Some ErrQuoteNoAssetID)).
Proof.
  intros Hne Hser Hdec Hsum Hid Hq Hc. split_and!.
  - unfold PaymentBandwidth. rewrite Hc, Hdec, Hsum, Hid. simpl.
    now rewrite Hq.
  - intros Hz. unfold ProduceHtlcExtraData.
    rewrite (len_nonzero _ Hne), Hser, Hdec, Hsum, Hid. simpl.
    rewrite Hq. simpl. now rewrite Hz.
  - intros Hnz Hasset. unfold ProduceHtlcExtraData.
    rewrite (len_nonzero _ Hne), Hser, Hdec, Hsum, Hid. simpl.
    rewrite Hq. simpl.
    destruct (N.eqb_spec (BidPrice q) 0); [contradiction |].
    now rewrite Hasset.
Qed.

(** X23. Whether the rewriter fails does not depend on the amount: an error or
    a panic for one amount is the same error or a panic for any other. *)
Theorem ProduceHtlcExtraData_failure_independent_of_amount s records
    totalAmount totalAmount' :
  (forall amount blob err,
     ProduceHtlcExtraData s totalAmount records
       = Returns (amount, blob, Some err) ->
     ProduceHtlcExtraData s totalAmount' records
       = Returns (amount, blob, Some err))
  /\ (ProduceHtlcExtraData s totalAmount records = Panics ->
      ProduceHtlcExtraData s totalAmount' records = Panics).
Proof.
  split.
  - intros amount blob err.
    produce_paths s records; intros Hres; simplify_eq; reflexivity.
  - produce_paths s records; intros Hres; simplify_eq; reflexivity.
Qed.

End EstimatorAndRewriter.

(** A commitment without local outputs, and an HTLC with a quote at 1000:
    no bandwidth. *)
Lemma PaymentBandwidth_no_local_balance_witness :
  fst (PaymentBandwidth (codec := Demo.codec)
         (Demo.shaper (Demo.quotes_of 1000))
         (Some [Byte.x00; Byte.x07]) (Some [Byte.x00]))
    = 0.
Proof.
  apply (PaymentBandwidth_no_local_balance (codec := Demo.codec)
           (Demo.shaper (Demo.quotes_of 1000)) (Some [Byte.x00; Byte.x07])
           [Byte.x00] (MkCommitment [MkAssetOutput 0])).
  - reflexivity.
  - reflexivity.
Defined.

(** A quote at 1000 that names no asset: 5 units of balance are reported
    as 5000 milli-satoshi, and the rewrite fails. *)
Lemma estimator_accepts_what_rewriter_refuses_witness :
  PaymentBandwidth (codec := Demo.codec)
    (Demo.shaper {[ 7 := MkSellAccept 1000 None ]})
    (Some [Byte.x00; Byte.x07]) (Some [Byte.x05])
    = (5000, None)
  /\ ProduceHtlcExtraData (codec := Demo.codec)
       (Demo.shaper {[ 7 := MkSellAccept 1000 None ]}) 12345
       (Demo.records_of [Byte.x00; Byte.x07])
       = Returns (0, None, Some ErrQuoteNoAssetID).
Proof.
  destruct (estimator_accepts_what_rewriter_refuses (codec := Demo.codec)
              (Demo.shaper {[ 7 := MkSellAccept 1000 None ]}) 12345
              (Demo.records_of [Byte.x00; Byte.x07])
              [Byte.x00; Byte.x07] (MkHtlc [] (Some [Byte.x07])) [Byte.x07]
              (MkSellAccept 1000 None) [Byte.x05]
              (MkCommitment [MkAssetOutput 5]))
    as (Hbandwidth & _ & Hrefused).
  - vm_compute. discriminate.
  - vm_compute. reflexivity.
  - reflexivity.
  - reflexivity.
  - reflexivity.
  - vm_compute. reflexivity.
  - reflexivity.
  - split.
    + exact Hbandwidth.
    + apply Hrefused; [vm_compute; discriminate | reflexivity].
Defined.

(** The missing quote identifier is reported for 1 milli-satoshi as for
    12345. *)
Lemma ProduceHtlcExtraData_failure_independent_of_amount_witness :
  ProduceHtlcExtraData (codec := Demo.codec) (Demo.shaper ∅) 1
    (Demo.records_of [Byte.x00])
    = Returns (0, None, Some ErrNoRfqID).
Proof.
  apply (proj1 (ProduceHtlcExtraData_failure_independent_of_amount
                  (codec := Demo.codec) (Demo.shaper ∅)
                  (Demo.records_of [Byte.x00]) 12345 1)).
  vm_compute. reflexivity.
Defined.
